(** * Animated keyboard preview of the Acer Predator RGB front-end

    A shallow embedding of [src/gui/components/keyboard_preview.py]
    (classes [KeyWidget] and [KeyboardPreviewWidget]) together with the
    payload handling of [web_gui.py], followed by the properties of the
    animation engine.

    Conventions of the embedding.
    - Python [int] is [Z].  Python [float] is modelled by [R]: every
      floating-point operation is read as the exact real operation, and
      [math.sin] is the real sine.
    - A method that mutates [self] is a function from the old object to the
      new one.  A method that may raise ([IndexError] on a list subscript)
      returns [option]; [None] stands for the raised exception.
    - [QColor] comes from Qt.  Its constructor from three channels is the
      record constructor; [QColor.setHsv] is not part of the repository and
      is taken as a parameter of the development. *)

From Stdlib Require Import ZArith List Bool Lia Reals Lra Psatz.
From Stdlib Require Ascii String.
Import ListNotations.

Open Scope Z_scope.

(** ** Python numerics *)

(** [int(x)] on a float: truncation toward zero. *)
Definition py_int (x : R) : Z :=
  if Rle_dec 0 x then Int_part x else - Int_part (- x).

(** [x % y] on floats: the result takes the sign of the divisor. *)
Definition py_fmod (x y : R) : R :=
  (x - IZR (Int_part (x / y)) * y)%R.

(** The built-in [round(x)]: nearest integer, ties to the even one. *)
Definition py_round (x : R) : Z :=
  let n := Int_part x in
  let r := (x - IZR n)%R in
  if Rlt_dec r (1 / 2) then n
  else if Rlt_dec (1 / 2) r then n + 1
  else if Z.even n then n else n + 1.

(** ** The error monad of raising code *)

Definition bind {A B : Type} (m : option A) (k : A -> option B) : option B :=
  match m with
  | Some a => k a
  | None => None
  end.

Notation "x <- m ;; k" := (bind m (fun x => k))
  (at level 61, m at next level, right associativity).

(** A [for] loop whose body may raise, threading the loop index. *)
Fixpoint for_each_from {A B : Type} (f : Z -> A -> option B) (i : Z)
    (l : list A) : option (list B) :=
  match l with
  | [] => Some []
  | a :: l' =>
      b <- f i a ;;
      bs <- for_each_from f (i + 1) l' ;;
      Some (b :: bs)
  end.

(** [for i, x in enumerate(l)] *)
Definition for_enumerate {A B : Type} (f : Z -> A -> option B) (l : list A)
    : option (list B) :=
  for_each_from f 0 l.

(** [for x in l] *)
Definition for_each {A B : Type} (f : A -> option B) (l : list A)
    : option (list B) :=
  for_each_from (fun _ => f) 0 l.

(** ** Python lists *)

(** [l[i]]: a negative index counts from the end, an index outside
    [-len(l) .. len(l) - 1] raises [IndexError]. *)
Definition py_getitem {A : Type} (l : list A) (i : Z) : option A :=
  let n := Z.of_nat (length l) in
  if (0 <=? i) && (i <? n) then nth_error l (Z.to_nat i)
  else if (- n <=? i) && (i <? 0) then nth_error l (Z.to_nat (n + i))
  else None.

Fixpoint replace_nth {A : Type} (l : list A) (k : nat) (v : A) : list A :=
  match l, k with
  | [], _ => []
  | _ :: l', O => v :: l'
  | a :: l', S k' => a :: replace_nth l' k' v
  end.

(** [l[i] = v], with the same index rule. *)
Definition py_setitem {A : Type} (l : list A) (i : Z) (v : A)
    : option (list A) :=
  let n := Z.of_nat (length l) in
  if (0 <=? i) && (i <? n) then Some (replace_nth l (Z.to_nat i) v)
  else if (- n <=? i) && (i <? 0) then Some (replace_nth l (Z.to_nat (n + i)) v)
  else None.

(** ** Qt values *)

Record QColor : Type := mkQColor { red : Z; green : Z; blue : Z }.

(** [QTimer]: whether it is running, and its interval in milliseconds. *)
Record QTimer : Type := mkQTimer { isActive : bool; interval : Z }.

Definition timer_start (msec : Z) (t : QTimer) : QTimer := mkQTimer true msec.
Definition timer_stop (t : QTimer) : QTimer := mkQTimer false (interval t).
Definition timer_setInterval (msec : Z) (t : QTimer) : QTimer :=
  mkQTimer (isActive t) msec.

(** ** [KeyWidget] *)

(** [background] is the colour written into the key's style sheet. *)
Record KeyWidget : Type := mkKey {
  zone_id : Z;
  current_color : QColor;
  brightness : Z;
  is_lit : bool;
  background : QColor
}.

(** [KeyWidget.__init__] *)
Definition new_key : KeyWidget :=
  mkKey 1 (mkQColor 50 255 50) 100 true (mkQColor 50 255 50).

(** [KeyWidget.set_color] *)
Definition set_color (color : QColor) (b : Z) (key : KeyWidget) : KeyWidget :=
  let adjusted_color :=
    if b <? 100 then
      let factor := (IZR b / 100)%R in
      let r := py_int (IZR (red color) * factor) in
      let g := py_int (IZR (green color) * factor) in
      let bl := py_int (IZR (blue color) * factor) in
      mkQColor r g bl
    else color in
  let adjusted_color :=
    if b =? 0 then mkQColor 30 30 30 else adjusted_color in
  mkKey (zone_id key) color b (is_lit key) adjusted_color.

(** [KeyWidget.set_zone] *)
Definition set_zone (z : Z) (key : KeyWidget) : KeyWidget :=
  mkKey z (current_color key) (brightness key) (is_lit key) (background key).

(** A hue/saturation/value conversion in integer arithmetic (six sextants
    of 60 degrees), used to instantiate the [setHsv] parameter below. *)
Definition sextant_hsv (h s v : Z) : QColor :=
  let hh := h mod 360 in
  let f := hh mod 60 in
  let p := v * (255 - s) / 255 in
  let q := v * (255 * 60 - s * f) / (255 * 60) in
  let t := v * (255 * 60 - s * (60 - f)) / (255 * 60) in
  match hh / 60 with
  | 0 => mkQColor v t p
  | 1 => mkQColor q v p
  | 2 => mkQColor p v t
  | 3 => mkQColor p q v
  | 4 => mkQColor t p v
  | _ => mkQColor v p q
  end.

(** ** Modes *)

Inductive Mode : Type := Static | Breathing | Neon | Wave | Shifting | Zoom.

(** The integer identifier the widget stores in [current_mode]. *)
Definition mode_id (m : Mode) : Z :=
  match m with
  | Static => 0
  | Breathing => 1
  | Neon => 2
  | Wave => 3
  | Shifting => 4
  | Zoom => 5
  end.

(** [x in l] on a list of integers. *)
Definition py_in (x : Z) (l : list Z) : bool := existsb (Z.eqb x) l.

(** [range(n)] *)
Definition py_range (n : nat) : list Z := map Z.of_nat (seq 0 n).

(** A [for] loop that threads the object being mutated. *)
Fixpoint for_fold {A S : Type} (body : A -> S -> option S) (l : list A)
    (s : S) : option S :=
  match l with
  | [] => Some s
  | a :: l' => s' <- body a s ;; for_fold body l' s'
  end.

(** ** The state dictionary handed over by the controller

    A dictionary with the keys ['mode'], ['brightness'], ['speed'],
    ['direction'], ['color'] and ['zone']; a key that is absent is [None]. *)
Record StateDict : Type := mkStateDict {
  d_mode : option Z;
  d_brightness : option Z;
  d_speed : option Z;
  d_direction : option Z;
  d_color : option (Z * Z * Z);
  d_zone : option Z
}.

(** [d.get(key, default)] *)
Definition dict_get {A : Type} (entry : option A) (default : A) : A :=
  match entry with
  | Some v => v
  | None => default
  end.

(** ** [KeyboardPreviewWidget] *)

Record KeyboardPreviewWidget : Type := mkWidget {
  animation_timer : QTimer;
  animation_frame : Z;
  current_mode : Z;
  current_colors : list (Z * Z * Z);
  current_brightness : Z;
  current_speed : Z;
  current_direction : Z;
  keys : list KeyWidget;
  zone_colors : list QColor
}.

Definition with_timer (t : QTimer) (w : KeyboardPreviewWidget) :=
  mkWidget t (animation_frame w) (current_mode w) (current_colors w)
    (current_brightness w) (current_speed w) (current_direction w)
    (keys w) (zone_colors w).

Definition with_frame (f : Z) (w : KeyboardPreviewWidget) :=
  mkWidget (animation_timer w) f (current_mode w) (current_colors w)
    (current_brightness w) (current_speed w) (current_direction w)
    (keys w) (zone_colors w).

Definition with_mode (m : Z) (w : KeyboardPreviewWidget) :=
  mkWidget (animation_timer w) (animation_frame w) m (current_colors w)
    (current_brightness w) (current_speed w) (current_direction w)
    (keys w) (zone_colors w).

Definition with_brightness (b : Z) (w : KeyboardPreviewWidget) :=
  mkWidget (animation_timer w) (animation_frame w) (current_mode w)
    (current_colors w) b (current_speed w) (current_direction w)
    (keys w) (zone_colors w).

Definition with_speed (s : Z) (w : KeyboardPreviewWidget) :=
  mkWidget (animation_timer w) (animation_frame w) (current_mode w)
    (current_colors w) (current_brightness w) s (current_direction w)
    (keys w) (zone_colors w).

Definition with_direction (d : Z) (w : KeyboardPreviewWidget) :=
  mkWidget (animation_timer w) (animation_frame w) (current_mode w)
    (current_colors w) (current_brightness w) (current_speed w) d
    (keys w) (zone_colors w).

Definition with_keys (ks : list KeyWidget) (w : KeyboardPreviewWidget) :=
  mkWidget (animation_timer w) (animation_frame w) (current_mode w)
    (current_colors w) (current_brightness w) (current_speed w)
    (current_direction w) ks (zone_colors w).

Definition with_zone_colors (zc : list QColor) (w : KeyboardPreviewWidget) :=
  mkWidget (animation_timer w) (animation_frame w) (current_mode w)
    (current_colors w) (current_brightness w) (current_speed w)
    (current_direction w) (keys w) zc.

(** The modes listed in [start_animation] and [update_animation_mode]. *)
Definition animated_modes : list Z := [1; 2; 3; 4; 5].

(** The modes listed in [update_color]. *)
Definition color_modes : list Z := [0; 1; 4; 5].

(** Wave position of a zone, as computed inside [animate_wave]. *)
Definition wave_pos (direction frame zone_idx : Z) : Z :=
  if direction =? 1 then (frame - zone_idx * 10) mod 100
  else (frame + zone_idx * 10) mod 100.

(** The sine factor shared by [animate_breathing] and [animate_zoom]. *)
Definition sine_factor (frame : Z) : R :=
  ((sin (IZR frame * 0.1) + 1) / 2)%R.

(** One channel of the zoom colour. *)
Definition zoom_channel (c : Z) (zoom_factor : R) : Z :=
  Z.min 255 (py_int (IZR c * (0.8 + 0.2 * zoom_factor))).

(** One channel of the shifting mix. *)
Definition mix_channel (orig base : Z) (shift_amount : R) : Z :=
  py_int (IZR orig * (1 - shift_amount) + IZR base * shift_amount).

Section Engine.

(** [setHsv h s v] is the colour held by a fresh [QColor] after
    [color.setHsv(h, s, v)]. *)
Variable setHsv : Z -> Z -> Z -> QColor.

(** The body of the two loops of [create_keyboard_layout]. *)
Definition make_key (w : KeyboardPreviewWidget) (zone : Z) : option KeyWidget :=
  c <- py_getitem (zone_colors w) zone ;;
  Some (set_color c (current_brightness w) (set_zone (zone + 1) new_key)).

(** [create_keyboard_layout]: eight small keys per zone, then one wide key
    per zone. *)
Definition create_keyboard_layout (w : KeyboardPreviewWidget)
    : option KeyboardPreviewWidget :=
  let keys_per_zone := 8%nat in
  small <- for_each
             (fun zone => for_each (fun _ => make_key w zone)
                            (py_range keys_per_zone))
             (py_range 4) ;;
  large <- for_each (make_key w) (py_range 4) ;;
  Some (with_keys (concat small ++ large) w).

(** [update_keys] *)
Definition update_keys (w : KeyboardPreviewWidget)
    : option KeyboardPreviewWidget :=
  ks <- for_each
          (fun key =>
             let zone_idx := zone_id key - 1 in
             if (0 <=? zone_idx) && (zone_idx <? 4) then
               c <- py_getitem (zone_colors w) zone_idx ;;
               Some (set_color c (current_brightness w) key)
             else Some key)
          (keys w) ;;
  Some (with_keys ks w).

(** [update_color] *)
Definition update_color (color : QColor) (w : KeyboardPreviewWidget)
    : option KeyboardPreviewWidget :=
  if py_in (current_mode w) color_modes then
    zc <- for_fold (fun i zc => py_setitem zc i color) (py_range 4)
            (zone_colors w) ;;
    update_keys (with_zone_colors zc w)
  else Some w.

(** [update_zone_color] *)
Definition update_zone_color (zone : Z) (color : QColor)
    (w : KeyboardPreviewWidget) : option KeyboardPreviewWidget :=
  if (1 <=? zone) && (zone <=? 4) then
    zc <- py_setitem (zone_colors w) (zone - 1) color ;;
    update_keys (with_zone_colors zc w)
  else Some w.

(** [update_brightness] *)
Definition update_brightness (b : Z) (w : KeyboardPreviewWidget)
    : option KeyboardPreviewWidget :=
  update_keys (with_brightness b w).

(** [start_animation] *)
Definition start_animation (w : KeyboardPreviewWidget) : KeyboardPreviewWidget :=
  if py_in (current_mode w) animated_modes then
    with_timer (timer_start 100 (animation_timer w)) w
  else with_timer (timer_stop (animation_timer w)) w.

(** [update_animation_mode] *)
Definition update_animation_mode (w : KeyboardPreviewWidget)
    : option KeyboardPreviewWidget :=
  if py_in (current_mode w) animated_modes then Some (start_animation w)
  else update_keys (with_timer (timer_stop (animation_timer w)) w).

(** [update_mode] *)
Definition update_mode (mode : Z) (w : KeyboardPreviewWidget)
    : option KeyboardPreviewWidget :=
  w1 <- update_animation_mode (with_mode mode w) ;;
  update_keys w1.

(** [update_animation_speed] *)
Definition update_animation_speed (w : KeyboardPreviewWidget)
    : KeyboardPreviewWidget :=
  if isActive (animation_timer w) then
    let interval := Z.max 50 (250 - current_speed w * 20) in
    with_timer (timer_setInterval interval (animation_timer w)) w
  else w.

(** [update_speed] *)
Definition update_speed (speed : Z) (w : KeyboardPreviewWidget)
    : KeyboardPreviewWidget :=
  update_animation_speed (with_speed speed w).

(** [update_direction] *)
Definition update_direction (direction : Z) (w : KeyboardPreviewWidget)
    : KeyboardPreviewWidget :=
  with_direction direction w.

(** [update_from_state] *)
Definition update_from_state (state : StateDict) (w : KeyboardPreviewWidget)
    : option KeyboardPreviewWidget :=
  let w := with_mode (dict_get (d_mode state) 3) w in
  let w := with_brightness (dict_get (d_brightness state) 100) w in
  let w := with_speed (dict_get (d_speed state) 5) w in
  let w := with_direction (dict_get (d_direction state) 1) w in
  let '(r, g, b) := dict_get (d_color state) (50, 255, 50) in
  let new_color := mkQColor r g b in
  w1 <- (if current_mode w =? 0 then
           let zone := dict_get (d_zone state) 1 in
           update_zone_color zone new_color w
         else update_color new_color w) ;;
  w2 <- update_mode (current_mode w1) w1 ;;
  Some (update_speed (current_speed w2) w2).

(** [animate_breathing] *)
Definition animate_breathing (w : KeyboardPreviewWidget)
    : option KeyboardPreviewWidget :=
  let brightness_factor := sine_factor (animation_frame w) in
  let effective_brightness :=
    py_int (IZR (current_brightness w) * brightness_factor) in
  ks <- for_each
          (fun key =>
             let zone_idx := zone_id key - 1 in
             if (0 <=? zone_idx) && (zone_idx <? 4) then
               c <- py_getitem (zone_colors w) zone_idx ;;
               Some (set_color c effective_brightness key)
             else Some key)
          (keys w) ;;
  Some (with_keys ks w).

(** [animate_neon] *)
Definition animate_neon (w : KeyboardPreviewWidget)
    : option KeyboardPreviewWidget :=
  ks <- for_enumerate
          (fun i key =>
             let hue := (animation_frame w * 2 + i * 10) mod 360 in
             let color := setHsv hue 255 255 in
             Some (set_color color (current_brightness w) key))
          (keys w) ;;
  Some (with_keys ks w).

(** [animate_wave] *)
Definition animate_wave (w : KeyboardPreviewWidget)
    : option KeyboardPreviewWidget :=
  ks <- for_each
          (fun key =>
             let zone_idx := zone_id key - 1 in
             let wave_pos :=
               wave_pos (current_direction w) (animation_frame w) zone_idx in
             let brightness_factor :=
               ((sin (IZR wave_pos * 0.1) + 1) / 2)%R in
             let effective_brightness :=
               py_int (IZR (current_brightness w) * brightness_factor) in
             let hue := py_fmod (IZR wave_pos * 3.6) 360 in
             let color := setHsv (py_int hue) 255 255 in
             Some (set_color color effective_brightness key))
          (keys w) ;;
  Some (with_keys ks w).

(** [animate_shifting] *)
Definition animate_shifting (w : KeyboardPreviewWidget)
    : option KeyboardPreviewWidget :=
  let hue := (animation_frame w * 2) mod 360 in
  let base_color := setHsv hue 255 255 in
  original <- py_getitem (zone_colors w) 0 ;;
  ks <- for_each
          (fun key =>
             let shift_amount :=
               (sin (IZR (animation_frame w) * 0.05) * 0.5 + 0.5)%R in
             let r := mix_channel (red original) (red base_color) shift_amount in
             let g :=
               mix_channel (green original) (green base_color) shift_amount in
             let b :=
               mix_channel (blue original) (blue base_color) shift_amount in
             let mixed_color := mkQColor r g b in
             Some (set_color mixed_color (current_brightness w) key))
          (keys w) ;;
  Some (with_keys ks w).

(** [animate_zoom] *)
Definition animate_zoom (w : KeyboardPreviewWidget)
    : option KeyboardPreviewWidget :=
  let zoom_factor := sine_factor (animation_frame w) in
  ks <- for_enumerate
          (fun _ key =>
             let zone_idx := zone_id key - 1 in
             base_color <- py_getitem (zone_colors w) zone_idx ;;
             let effective_brightness :=
               py_int (IZR (current_brightness w) * (0.3 + 0.7 * zoom_factor)) in
             let r := zoom_channel (red base_color) zoom_factor in
             let g := zoom_channel (green base_color) zoom_factor in
             let b := zoom_channel (blue base_color) zoom_factor in
             let zoom_color := mkQColor r g b in
             Some (set_color zoom_color effective_brightness key))
          (keys w) ;;
  Some (with_keys ks w).

(** [update_animation]: the slot connected to the timer's [timeout]. *)
Definition update_animation (w : KeyboardPreviewWidget)
    : option KeyboardPreviewWidget :=
  let w := with_frame (animation_frame w + 1) w in
  if current_mode w =? 1 then animate_breathing w
  else if current_mode w =? 2 then animate_neon w
  else if current_mode w =? 3 then animate_wave w
  else if current_mode w =? 4 then animate_shifting w
  else if current_mode w =? 5 then animate_zoom w
  else Some w.

(** [__init__]: a fresh timer, the default state, the key layout, and the
    first [start_animation]. *)
Definition init : option KeyboardPreviewWidget :=
  let w :=
    mkWidget (mkQTimer false 0) 0 3
      (repeat (50, 255, 50) 4) 100 5 1 []
      (repeat (mkQColor 50 255 50) 4) in
  w1 <- create_keyboard_layout w ;;
  Some (start_animation w1).

End Engine.

(** ** [RGBWebHandler.handle_set_mode]

    The arguments the handler passes to the controller: the mode, and the
    keyword arguments built from the keys present in the request body. *)
Definition handle_set_mode_args (data : StateDict) : Z * StateDict :=
  let mode := dict_get (d_mode data) 3 in
  let kwargs := mkStateDict None None None None None None in
  let kwargs :=
    match d_brightness data with
    | Some b => mkStateDict (d_mode kwargs) (Some b) (d_speed kwargs)
                  (d_direction kwargs) (d_color kwargs) (d_zone kwargs)
    | None => kwargs
    end in
  let kwargs :=
    match d_speed data with
    | Some s => mkStateDict (d_mode kwargs) (d_brightness kwargs) (Some s)
                  (d_direction kwargs) (d_color kwargs) (d_zone kwargs)
    | None => kwargs
    end in
  let kwargs :=
    match d_color data with
    | Some c => mkStateDict (d_mode kwargs) (d_brightness kwargs)
                  (d_speed kwargs) (d_direction kwargs) (Some c) (d_zone kwargs)
    | None => kwargs
    end in
  let kwargs :=
    match d_direction data with
    | Some d => mkStateDict (d_mode kwargs) (d_brightness kwargs)
                  (d_speed kwargs) (Some d) (d_color kwargs) (d_zone kwargs)
    | None => kwargs
    end in
  let kwargs :=
    match d_zone data with
    | Some z => mkStateDict (d_mode kwargs) (d_brightness kwargs)
                  (d_speed kwargs) (d_direction kwargs) (d_color kwargs) (Some z)
    | None => kwargs
    end in
  (mode, kwargs).

(** ** Ranges and well-formed widgets *)

Definition valid_color (c : QColor) : Prop :=
  0 <= red c <= 255 /\ 0 <= green c <= 255 /\ 0 <= blue c <= 255.

(** What a key displays is within the documented ranges. *)
Definition key_in_range (k : KeyWidget) : Prop :=
  0 <= brightness k <= 100 /\
  valid_color (current_color k) /\
  valid_color (background k).

Definition valid_zone (k : KeyWidget) : Prop := 1 <= zone_id k <= 4.

(** The state the widget keeps between calls: four base colours with
    channels in range, a brightness in range, and keys that belong to one
    of the four zones and display values in range. *)
Record well_formed (w : KeyboardPreviewWidget) : Prop := mkWellFormed {
  wf_brightness : 0 <= current_brightness w <= 100;
  wf_zone_count : length (zone_colors w) = 4%nat;
  wf_zone_colors : Forall valid_color (zone_colors w);
  wf_key_zones : Forall valid_zone (keys w);
  wf_keys : Forall key_in_range (keys w)
}.

(** The widget right after construction, written out. *)
Definition initial_keys : list KeyWidget :=
  map (fun z => mkKey z (mkQColor 50 255 50) 100 true (mkQColor 50 255 50))
    (concat (map (fun z => repeat z 8) [1; 2; 3; 4]) ++ [1; 2; 3; 4]).

Definition initial_widget : KeyboardPreviewWidget :=
  mkWidget (mkQTimer true 100) 0 3 (repeat (50, 255, 50) 4) 100 5 1
    initial_keys (repeat (mkQColor 50 255 50) 4).

(** What [animate_breathing] does to one key [k], giving [k']: the zone
    stays, the brightness is the truncated product, and the colour is the
    base colour of the key's zone. *)
Definition breathing_key (w : KeyboardPreviewWidget) (k k' : KeyWidget) : Prop :=
  zone_id k' = zone_id k /\
  brightness k' =
    py_int (IZR (current_brightness w) * sine_factor (animation_frame w)) /\
  py_getitem (zone_colors w) (zone_id k - 1) = Some (current_color k').

(** The widget after the constructor and [update_mode(1)]. *)
Definition breathing_widget : KeyboardPreviewWidget :=
  with_mode 1 initial_widget.

(** The widget after the constructor and [update_mode(0)]. *)
Definition static_widget : KeyboardPreviewWidget :=
  with_timer (mkQTimer false 100) (with_mode 0 initial_widget).

(** [n] ticks delivered one after the other. *)
Fixpoint ticks (setHsv : Z -> Z -> Z -> QColor) (n : nat)
    (w : KeyboardPreviewWidget) : option KeyboardPreviewWidget :=
  match n with
  | O => Some w
  | S n' => w1 <- update_animation setHsv w ;; ticks setHsv n' w1
  end.

(** The two directions, with the integer the widget stores in
    [current_direction]: 1 = right to left, 2 = left to right. *)
Inductive Direction : Type := RightToLeft | LeftToRight.

Definition direction_id (d : Direction) : Z :=
  match d with
  | RightToLeft => 1
  | LeftToRight => 2
  end.

(** The wave position the specification gives for a direction. *)
Definition spec_wave_pos (d : Direction) (frame zone_idx : Z) : Z :=
  match d with
  | RightToLeft => (frame - zone_idx * 10) mod 100
  | LeftToRight => (frame + zone_idx * 10) mod 100
  end.

(** What [animate_wave] does to one key [k], giving [k'], in terms of a
    wave position [p]. *)
Definition wave_key (setHsv : Z -> Z -> Z -> QColor) (b p : Z)
    (k' : KeyWidget) : Prop :=
  brightness k' = py_int (IZR b * ((sin (IZR p * 0.1) + 1) / 2)) /\
  current_color k' = setHsv (py_int (py_fmod (IZR p * 3.6) 360)) 255 255.

(** What [animate_zoom] does to one key [k], giving [k']. *)
Definition zoom_key (w : KeyboardPreviewWidget) (k k' : KeyWidget) : Prop :=
  exists base,
    py_getitem (zone_colors w) (zone_id k - 1) = Some base /\
    let zf := sine_factor (animation_frame w) in
    current_color k' =
      mkQColor (zoom_channel (red base) zf) (zoom_channel (green base) zf)
        (zoom_channel (blue base) zf) /\
    brightness k' = py_int (IZR (current_brightness w) * (0.3 + 0.7 * zf)).

Definition channels_at_most (n : Z) (c : QColor) : Prop :=
  red c <= n /\ green c <= n /\ blue c <= n.

(** The widget after the constructor and [update_mode(5)]. *)
Definition zoom_widget : KeyboardPreviewWidget :=
  with_mode 5 initial_widget.

(** What [update_keys] does to one key [k], giving [k']: a key of zones
    1..4 takes the base colour of its zone and the current brightness, any
    other key is left alone. *)
Definition refreshed_key (w : KeyboardPreviewWidget) (k k' : KeyWidget) : Prop :=
  zone_id k' = zone_id k /\
  (valid_zone k ->
   py_getitem (zone_colors w) (zone_id k - 1) = Some (current_color k') /\
   brightness k' = current_brightness w) /\
  (~ valid_zone k -> k' = k).

(** The base colours [update_from_state] leaves behind, given the ones
    before: in Static mode the colour goes to the zone named in the
    dictionary (zone 1 when absent; no zone when outside 1..4), in the other
    modes of [color_modes] to all four zones, and nowhere otherwise. *)
Definition state_zone_colors (state : StateDict) (zc : list QColor)
    : list QColor :=
  let mode := dict_get (d_mode state) 3 in
  let '(r, g, b) := dict_get (d_color state) (50, 255, 50) in
  let new_color := mkQColor r g b in
  if mode =? 0 then
    let zone := dict_get (d_zone state) 1 in
    if (1 <=? zone) && (zone <=? 4)
    then replace_nth zc (Z.to_nat (zone - 1)) new_color
    else zc
  else if py_in mode color_modes then repeat new_color 4
  else zc.

(** The widget after the constructor and [update_speed(7)]. *)
Definition speed7_widget : KeyboardPreviewWidget :=
  with_timer (mkQTimer true 110) (with_speed 7 initial_widget).

(** ** [KeyboardPreviewWidget.mousePressEvent]

    [x] is [event.position().x()], a float; [init_ui] fixes the width of
    [keyboard_container] at 460.  The result is the zone carried by the
    [zone_clicked] signal, [None] when no signal is emitted. *)
Definition keyboard_container_width : Z := 460.

(** [x // y] on floats. *)
Definition py_floordiv (x y : R) : R := IZR (Int_part (x / y)).

Definition mousePressEvent (left_button : bool) (x : R) : option Z :=
  if left_button then
    let zone_width := (IZR keyboard_container_width / 4)%R in
    let zone := py_int (py_floordiv x zone_width) + 1 in
    if (1 <=? zone) && (zone <=? 4) then Some zone else None
  else None.

(** ** Sessions

    A call on the widget from outside: one of its public methods with its
    arguments, or the timer's [timeout] reaching [update_animation]. *)
Inductive Call : Type :=
| CallUpdateColor (color : QColor)
| CallUpdateZoneColor (zone : Z) (color : QColor)
| CallUpdateBrightness (b : Z)
| CallUpdateMode (mode : Z)
| CallUpdateSpeed (speed : Z)
| CallUpdateDirection (direction : Z)
| CallUpdateFromState (state : StateDict)
| CallTick.

Definition run_call (setHsv : Z -> Z -> Z -> QColor) (c : Call)
    (w : KeyboardPreviewWidget) : option KeyboardPreviewWidget :=
  match c with
  | CallUpdateColor color => update_color color w
  | CallUpdateZoneColor zone color => update_zone_color zone color w
  | CallUpdateBrightness b => update_brightness b w
  | CallUpdateMode mode => update_mode mode w
  | CallUpdateSpeed speed => Some (update_speed speed w)
  | CallUpdateDirection direction => Some (update_direction direction w)
  | CallUpdateFromState state => update_from_state state w
  | CallTick => update_animation setHsv w
  end.

(** The calls of a list, one after the other; an exception ends the run. *)
Definition run_calls (setHsv : Z -> Z -> Z -> QColor) (cs : list Call)
    (w : KeyboardPreviewWidget) : option KeyboardPreviewWidget :=
  for_fold (run_call setHsv) cs w.

(** A session: the constructor, then a list of calls. *)
Definition session (setHsv : Z -> Z -> Z -> QColor) (cs : list Call)
    : option KeyboardPreviewWidget :=
  w <- init ;; run_calls setHsv cs w.

Definition is_tick (c : Call) : bool :=
  match c with
  | CallTick => true
  | _ => false
  end.

(** ** Total descriptions of the methods

    The widget each method returns when no subscript is out of range,
    used to state how the methods compose. *)

(** The body of the loop of [update_keys]. *)
Definition refresh_key (w : KeyboardPreviewWidget) (k : KeyWidget)
    : KeyWidget :=
  let zone_idx := zone_id k - 1 in
  if (0 <=? zone_idx) && (zone_idx <? 4) then
    match py_getitem (zone_colors w) zone_idx with
    | Some c => set_color c (current_brightness w) k
    | None => k
    end
  else k.

Definition refresh (w : KeyboardPreviewWidget) : KeyboardPreviewWidget :=
  with_keys (map (refresh_key w) (keys w)) w.

(** Every key already shows what [update_keys] would give it. *)
Definition keys_refreshed (w : KeyboardPreviewWidget) : Prop :=
  map (refresh_key w) (keys w) = keys w.

(** What every call keeps true of the widget: four base colours, the keys
    of the constructor in their zones, a timer armed exactly in the
    animated modes and never faster than 50 ms, and, outside the animated
    modes, keys that show their zone's base colour. *)
Record engine_invariant (w : KeyboardPreviewWidget) : Prop := mkInvariant {
  inv_zone_count : length (zone_colors w) = 4%nat;
  inv_key_zones : map zone_id (keys w) = map zone_id initial_keys;
  inv_timer :
    isActive (animation_timer w) = py_in (current_mode w) animated_modes;
  inv_interval : 50 <= interval (animation_timer w);
  inv_static :
    py_in (current_mode w) animated_modes = false -> keys_refreshed w
}.

(** A key shown as switched off: brightness 0, painted dark gray. *)
Definition off_key (k : KeyWidget) : Prop :=
  brightness k = 0 /\ background k = mkQColor 30 30 30.

(** The widget [update_from_state] returns when no subscript is out of
    range. *)
Definition update_from_state_result (state : StateDict)
    (w : KeyboardPreviewWidget) : KeyboardPreviewWidget :=
  let mode := dict_get (d_mode state) 3 in
  let speed := dict_get (d_speed state) 5 in
  let w0 :=
    with_direction (dict_get (d_direction state) 1)
      (with_speed speed
         (with_brightness (dict_get (d_brightness state) 100)
            (with_mode mode w))) in
  let w1 := with_zone_colors (state_zone_colors state (zone_colors w)) w0 in
  let timer :=
    if py_in mode animated_modes
    then timer_start 100 (animation_timer w)
    else timer_stop (animation_timer w) in
  update_speed speed (refresh (with_timer timer w1)).


(** ** The colour field of the web page ([web_gui.py], client script)

    The script writes a colour into the colour input as ["#rrggbb"] and
    reads it back with [parseInt].  JavaScript strings are modelled by
    [string], numbers that are integers by [Z], and [NaN] by [None]. *)
Module WebClient.

Import Ascii String.
Local Open Scope char_scope.

(** The digit [Number.prototype.toString] writes for a value below 16. *)
Definition hex_digit (n : Z) : ascii :=
  match n with
  | 0%Z => "0" | 1%Z => "1" | 2%Z => "2" | 3%Z => "3"
  | 4%Z => "4" | 5%Z => "5" | 6%Z => "6" | 7%Z => "7"
  | 8%Z => "8" | 9%Z => "9" | 10%Z => "a" | 11%Z => "b"
  | 12%Z => "c" | 13%Z => "d" | 14%Z => "e" | _ => "f"
  end.

(** The value [parseInt] gives a digit in radix 16, in either case. *)
Definition hex_digit_value (c : ascii) : option Z :=
  match c with
  | "0" => Some 0%Z | "1" => Some 1%Z | "2" => Some 2%Z | "3" => Some 3%Z
  | "4" => Some 4%Z | "5" => Some 5%Z | "6" => Some 6%Z | "7" => Some 7%Z
  | "8" => Some 8%Z | "9" => Some 9%Z
  | "a" | "A" => Some 10%Z | "b" | "B" => Some 11%Z
  | "c" | "C" => Some 12%Z | "d" | "D" => Some 13%Z
  | "e" | "E" => Some 14%Z | "f" | "F" => Some 15%Z
  | _ => None
  end.

Fixpoint hex_digits (fuel : nat) (n : Z) (acc : string) : string :=
  match fuel with
  | O => acc
  | S fuel' =>
      let acc' := String (hex_digit (n mod 16)) acc in
      if (n / 16 =? 0)%Z then acc' else hex_digits fuel' (n / 16) acc'
  end.

(** [n.toString(16)] for an integer [n]. *)
Definition toString16 (n : Z) : string :=
  if (n <? 0)%Z
  then String "-" (hex_digits (S (Z.to_nat (- n))) (- n) EmptyString)
  else hex_digits (S (Z.to_nat n)) n EmptyString.

Fixpoint padding (k : nat) (c : ascii) : string :=
  match k with
  | O => EmptyString
  | S k' => String c (padding k' c)
  end.

(** [s.padStart(target, c)] for a one-character pad string. *)
Definition padStart (target : nat) (c : ascii) (s : string) : string :=
  append (padding (target - length s) c) s.

(** [s.substr(start, len)] for non-negative arguments. *)
Definition substr (start len : nat) (s : string) : string :=
  substring start len s.

(** White space as [parseInt] skips it, among the characters of [ascii]:
    tab, line feed, vertical tab, form feed, carriage return, space and
    no-break space. *)
Definition is_white_space (c : ascii) : bool :=
  let n := nat_of_ascii c in
  ((9 <=? n) && (n <=? 13) || (n =? 32) || (n =? 160))%nat.

Fixpoint skip_white_space (s : string) : string :=
  match s with
  | String c s' => if is_white_space c then skip_white_space s' else s
  | EmptyString => s
  end.

(** The value of the longest prefix of digits of radix 16; [None] when
    there is no digit. *)
Fixpoint digits_value (s : string) (acc : Z) (seen : bool) : option Z :=
  match s with
  | String c s' =>
      match hex_digit_value c with
      | Some d => digits_value s' (acc * 16 + d) true
      | None => if seen then Some acc else None
      end
  | EmptyString => if seen then Some acc else None
  end.

(** [parseInt(s, 16)]: white space, an optional sign, an optional
    [0x] or [0X], then the digits up to the first other character. *)
Definition parseInt16 (s : string) : option Z :=
  let s := skip_white_space s in
  let '(sign, s) :=
    match s with
    | String "-" s' => ((-1)%Z, s')
    | String "+" s' => (1%Z, s')
    | _ => (1%Z, s)
    end in
  let s :=
    match s with
    | String "0" (String "x" s') => s'
    | String "0" (String "X" s') => s'
    | _ => s
    end in
  match digits_value s 0 false with
  | Some v => Some (sign * v)%Z
  | None => None
  end.

(** [n.toString(16).padStart(2, '0')] *)
Definition two_digits (n : Z) : string := padStart 2 "0" (toString16 n).

(** The template literal of [updateStatus] and [applyPreset]:
    [`#${r.toString(16).padStart(2, '0')}...`]. *)
Definition color_to_hex (r g b : Z) : string :=
  String "#"
    (append (two_digits r) (append (two_digits g) (two_digits b))).

(** The three [parseInt(colorHex.substr(i, 2), 16)] of [applySettings]
    and [applyToAllZones]. *)
Definition hex_to_color (colorHex : string)
    : option Z * option Z * option Z :=
  (parseInt16 (substr 1 2 colorHex),
   parseInt16 (substr 3 2 colorHex),
   parseInt16 (substr 5 2 colorHex)).

(** A simple colour as a colour input holds it: [#] and six digits
    [0-9a-f]. *)
Definition is_lower_hex (c : ascii) : bool :=
  match hex_digit_value c with
  | Some d => Ascii.eqb c (hex_digit d)
  | None => false
  end.

Fixpoint all_lower_hex (s : string) : bool :=
  match s with
  | String c s' => is_lower_hex c && all_lower_hex s'
  | EmptyString => true
  end.

Definition is_simple_color (s : string) : bool :=
  match s with
  | String "#" s' => (length s' =? 6)%nat && all_lower_hex s'
  | _ => false
  end.

(** One channel survives the trip through two digits. *)
Definition channel_round_trip (n : nat) : bool :=
  let s := two_digits (Z.of_nat n) in
  (length s =? 2)%nat && all_lower_hex s &&
  match parseInt16 s with
  | Some v => (v =? Z.of_nat n)%Z
  | None => false
  end.

End WebClient.

(** * Properties *)

(** ** Truncation *)

Lemma py_int_IZR (n : Z) : py_int (IZR n) = n.
Proof.
  unfold py_int. destruct (Rle_dec 0 (IZR n)) as [_ | _].
  - symmetry. apply Int_part_spec. lra.
  - rewrite <- opp_IZR.
    assert (H : Int_part (IZR (- n)) = - n)
      by (symmetry; apply Int_part_spec; lra).
    rewrite H. lia.
Qed.

Lemma py_int_nonneg_bounds (x : R) (n : Z) :
  (0 <= x <= IZR n)%R -> 0 <= py_int x <= n.
Proof.
  intros [H0 Hn]. unfold py_int.
  destruct (Rle_dec 0 x) as [_ | Hneg]; [| contradiction].
  destruct (base_Int_part x) as [Hlo Hhi]. split.
  - assert (H : (IZR (-1) < IZR (Int_part x))%R) by (simpl; lra).
    apply lt_IZR in H. lia.
  - apply le_IZR. lra.
Qed.

Lemma py_int_floor (x : R) (n : Z) :
  (IZR n <= x < IZR n + 1)%R -> 0 <= n -> py_int x = n.
Proof.
  intros [Hlo Hhi] Hn. unfold py_int.
  assert (H0 : (0 <= IZR n)%R) by (apply IZR_le; exact Hn).
  destruct (Rle_dec 0 x) as [_ | Hneg]; [| exfalso; apply Hneg; lra].
  symmetry. apply Int_part_spec. lra.
Qed.

Lemma py_fmod_small (x y : R) : (0 <= x < y)%R -> py_fmod x y = x.
Proof.
  intros [H0 Hy]. unfold py_fmod.
  assert (Hpos : (0 < y)%R) by lra.
  assert (Hq : Int_part (x / y) = 0).
  { symmetry. apply Int_part_spec. simpl. split.
    - assert (x / y < 1)%R; [| lra].
      apply (Rmult_lt_reg_r y); [exact Hpos |].
      unfold Rdiv. rewrite Rmult_assoc, Rinv_l by lra. lra.
    - unfold Rdiv. apply Rmult_le_pos; [exact H0 |].
      left. apply Rinv_0_lt_compat. exact Hpos. }
  rewrite Hq. simpl. lra.
Qed.

Lemma sine_factor_bounds (f : Z) : (0 <= sine_factor f <= 1)%R.
Proof.
  unfold sine_factor. pose proof (SIN_bound (IZR f * 0.1)) as [Hlo Hhi]. lra.
Qed.

(** ** Scaling and mixing stay in range *)

Lemma scaled_in_range (c hi : Z) (t : R) :
  0 <= c <= hi -> (0 <= t <= 1)%R -> 0 <= py_int (IZR c * t) <= hi.
Proof.
  intros [Hc0 Hchi] [Ht0 Ht1].
  assert (Hr0 : (0 <= IZR c)%R) by (apply IZR_le; exact Hc0).
  assert (H : 0 <= py_int (IZR c * t) <= c).
  { apply py_int_nonneg_bounds. split; nra. }
  lia.
Qed.

Lemma zoom_channel_in_range (c : Z) (zf : R) :
  0 <= c <= 255 -> (0 <= zf <= 1)%R -> 0 <= zoom_channel c zf <= 255.
Proof.
  intros Hc Hzf. unfold zoom_channel.
  assert (H : 0 <= py_int (IZR c * (0.8 + 0.2 * zf)) <= 255)
    by (apply scaled_in_range; [exact Hc | lra]).
  lia.
Qed.

Lemma mix_channel_in_range (o b : Z) (s : R) :
  0 <= o <= 255 -> 0 <= b <= 255 -> (0 <= s <= 1)%R ->
  0 <= mix_channel o b s <= 255.
Proof.
  intros [Ho0 Ho1] [Hb0 Hb1] [Hs0 Hs1]. unfold mix_channel.
  apply py_int_nonneg_bounds.
  apply IZR_le in Ho0, Ho1, Hb0, Hb1. split; nra.
Qed.

Lemma set_color_in_range (c : QColor) (b : Z) (k : KeyWidget) :
  valid_color c -> 0 <= b <= 100 -> key_in_range (set_color c b k).
Proof.
  intros Hc Hb. unfold key_in_range, set_color; simpl.
  split; [exact Hb |]. split; [exact Hc |].
  destruct (Z.eqb_spec b 0) as [-> | Hnz].
  - unfold valid_color; simpl; lia.
  - destruct (Z.ltb_spec b 100) as [Hlt | Hge]; [| exact Hc].
    destruct Hc as (Hr & Hg & Hbl).
    assert (Hf : (0 <= IZR b / 100 <= 1)%R).
    { destruct Hb as [Hb0 Hb1]. apply IZR_le in Hb0, Hb1. lra. }
    unfold valid_color; simpl.
    split; [| split]; apply scaled_in_range; assumption.
Qed.

(** ** Loops *)

Lemma for_each_from_rel {A B : Type} (P : A -> Prop) (Q : A -> B -> Prop)
    (f : Z -> A -> option B) :
  (forall i a, P a -> exists b, f i a = Some b /\ Q a b) ->
  forall l i, Forall P l ->
  exists bs, for_each_from f i l = Some bs /\ Forall2 Q l bs.
Proof.
  intros Hf l. induction l as [| a l IH]; intros i Hl.
  - exists []. split; [reflexivity | constructor].
  - inversion Hl as [| ? ? Ha Hl']; subst.
    destruct (Hf i a Ha) as (b & Hb & Hq).
    destruct (IH (i + 1) Hl') as (bs & Hbs & Hqs).
    exists (b :: bs). simpl. rewrite Hb. simpl. rewrite Hbs. simpl.
    split; [reflexivity | constructor; assumption].
Qed.

Lemma Forall2_right {A B : Type} (Q : A -> B -> Prop) (T : B -> Prop)
    (l : list A) (bs : list B) :
  Forall2 Q l bs -> (forall a b, Q a b -> T b) -> Forall T bs.
Proof.
  intros H HT. induction H; constructor; eauto.
Qed.

Lemma for_each_from_all {A B : Type} (P : A -> Prop) (T : B -> Prop)
    (f : Z -> A -> option B) :
  (forall i a, P a -> exists b, f i a = Some b /\ T b) ->
  forall l i, Forall P l ->
  exists bs, for_each_from f i l = Some bs /\ Forall T bs.
Proof.
  intros Hf l i Hl.
  destruct (for_each_from_rel P (fun _ b => T b) f Hf l i Hl) as (bs & Hbs & H2).
  exists bs. split; [exact Hbs |].
  apply (Forall2_right _ T _ _ H2). auto.
Qed.

(** ** Subscripts *)

Lemma py_getitem_in_bounds {A : Type} (l : list A) (i : Z) :
  0 <= i < Z.of_nat (length l) ->
  exists a, py_getitem l i = Some a /\ In a l.
Proof.
  intros [H0 Hn]. unfold py_getitem.
  destruct (Z.leb_spec 0 i) as [_ | ?]; [| lia].
  destruct (Z.ltb_spec i (Z.of_nat (length l))) as [_ | ?]; [| lia].
  simpl.
  destruct (nth_error l (Z.to_nat i)) as [a |] eqn:E.
  - exists a. split; [reflexivity |]. eapply nth_error_In; eassumption.
  - apply nth_error_None in E. lia.
Qed.

Lemma zone_color_lookup (w : KeyboardPreviewWidget) (i : Z) :
  length (zone_colors w) = 4%nat -> Forall valid_color (zone_colors w) ->
  0 <= i < 4 ->
  exists c, py_getitem (zone_colors w) i = Some c /\ valid_color c.
Proof.
  intros Hlen Hall Hi.
  destruct (py_getitem_in_bounds (zone_colors w) i) as (c & Hc & Hin).
  - rewrite Hlen. simpl. lia.
  - exists c. split; [exact Hc |].
    rewrite Forall_forall in Hall. apply Hall. exact Hin.
Qed.

Lemma wave_pos_range (d f z : Z) : 0 <= wave_pos d f z < 100.
Proof.
  unfold wave_pos. destruct (d =? 1); apply Z.mod_pos_bound; lia.
Qed.

Lemma wave_hue_range (p : Z) :
  0 <= p < 100 -> 0 <= py_int (py_fmod (IZR p * 3.6) 360) < 360.
Proof.
  intros [H0 H1].
  assert (Hp0 : (0 <= IZR p)%R) by (apply IZR_le; exact H0).
  assert (Hp1 : (IZR p <= 99)%R) by (apply IZR_le; lia).
  rewrite py_fmod_small by lra.
  assert (H : 0 <= py_int (IZR p * 3.6) <= 359)
    by (apply py_int_nonneg_bounds; lra).
  lia.
Qed.

Lemma shift_amount_bounds (x : R) : (0 <= sin x * 0.5 + 0.5 <= 1)%R.
Proof. pose proof (SIN_bound x) as [Hlo Hhi]. lra. Qed.

Lemma with_keys_well_formed (w : KeyboardPreviewWidget) (ks : list KeyWidget) :
  well_formed w -> Forall valid_zone ks -> Forall key_in_range ks ->
  well_formed (with_keys ks w).
Proof.
  intros [Hb Hn Hz _ _] Hzs Hks. constructor; simpl; assumption.
Qed.

Lemma with_frame_well_formed (w : KeyboardPreviewWidget) (f : Z) :
  well_formed w -> well_formed (with_frame f w).
Proof.
  intros [Hb Hn Hz Hkz Hks]. constructor; simpl; assumption.
Qed.

(** A loop over the keys whose body keeps the zone of a key and leaves it
    displaying values in range. *)
Lemma key_loop_in_range (f : Z -> KeyWidget -> option KeyWidget)
    (ks : list KeyWidget) (i : Z) :
  (forall j k, valid_zone k ->
     exists k', f j k = Some k' /\ valid_zone k' /\ key_in_range k') ->
  Forall valid_zone ks ->
  exists ks', for_each_from f i ks = Some ks' /\
              Forall valid_zone ks' /\ Forall key_in_range ks'.
Proof.
  intros Hf Hks.
  destruct (for_each_from_all valid_zone
              (fun k => valid_zone k /\ key_in_range k) f Hf ks i Hks)
    as (ks' & Hrun & Hall).
  exists ks'. split; [exact Hrun |].
  apply Forall_and_inv in Hall. exact Hall.
Qed.

Lemma sextant_hsv_valid (h : Z) :
  0 <= h < 360 -> valid_color (sextant_hsv h 255 255).
Proof.
  intros _. unfold sextant_hsv.
  set (f := (h mod 360) mod 60).
  assert (Hf : 0 <= f < 60) by (apply Z.mod_pos_bound; lia).
  assert (Hp : 0 <= 255 * (255 - 255) / 255 <= 255)
    by (split; [apply Z.div_pos | apply Z.div_le_upper_bound]; lia).
  assert (Hq : 0 <= 255 * (255 * 60 - 255 * f) / (255 * 60) <= 255).
  { split.
    - apply Z.div_pos; lia.
    - apply Z.div_le_upper_bound; lia. }
  assert (Ht : 0 <= 255 * (255 * 60 - 255 * (60 - f)) / (255 * 60) <= 255).
  { split.
    - apply Z.div_pos; lia.
    - apply Z.div_le_upper_bound; lia. }
  revert Hp Hq Ht.
  generalize (255 * (255 - 255) / 255)
             (255 * (255 * 60 - 255 * f) / (255 * 60))
             (255 * (255 * 60 - 255 * (60 - f)) / (255 * 60)).
  intros p q t Hp Hq Ht.
  destruct (h mod 360 / 60) as [| n | n];
    repeat match goal with
           | |- context [match ?x with _ => _ end] => destruct x
           end;
    unfold valid_color; simpl; lia.
Qed.

Lemma initial_widget_well_formed : well_formed initial_widget.
Proof.
  constructor; simpl.
  - lia.
  - reflexivity.
  - repeat constructor; simpl; lia.
  - unfold initial_keys; simpl. repeat constructor; simpl; lia.
  - unfold initial_keys; simpl.
    repeat (constructor; [unfold key_in_range, valid_color; simpl; lia |]).
    constructor.
Qed.

(** The constructor builds exactly [initial_widget]. *)
Lemma init_initial_widget : init = Some initial_widget.
Proof. vm_compute. reflexivity. Qed.

(** ** Breathing *)

Lemma sin_tenth_bounds : (0.0998 < sin 0.1 < 0.1)%R.
Proof.
  split.
  - assert (Hpi : (0.1 <= PI)%R) by (pose proof PI2_1; lra).
    destruct (sin_bound 0.1 0) as [Hlo _]; [lra | exact Hpi |].
    unfold sin_approx, sin_term in Hlo. simpl in Hlo. lra.
  - apply sin_lt_x. lra.
Qed.

(** At frame 1 and brightness 100 the product is a little below 55. *)
Lemma breathing_product_frame_1 :
  (54.99 < IZR 100 * sine_factor 1 < 55)%R.
Proof.
  unfold sine_factor. replace (IZR 1 * 0.1)%R with 0.1%R by lra.
  pose proof sin_tenth_bounds as [Hlo Hhi]. lra.
Qed.

Lemma breathing_truncated_frame_1 : py_int (IZR 100 * sine_factor 1) = 54.
Proof.
  apply py_int_floor; [| lia].
  pose proof breathing_product_frame_1 as [Hlo Hhi]. lra.
Qed.

Lemma breathing_rounded_frame_1 : py_round (IZR 100 * sine_factor 1) = 55.
Proof.
  pose proof breathing_product_frame_1 as [Hlo Hhi].
  assert (Hn : Int_part (IZR 100 * sine_factor 1) = 54)
    by (symmetry; apply Int_part_spec; lra).
  unfold py_round. rewrite Hn.
  destruct (Rlt_dec (IZR 100 * sine_factor 1 - IZR 54) (1 / 2)) as [Hlt | _].
  - exfalso. lra.
  - destruct (Rlt_dec (1 / 2) (IZR 100 * sine_factor 1 - IZR 54)) as [_ | Hn'].
    + reflexivity.
    + exfalso. apply Hn'. lra.
Qed.

Lemma animate_breathing_keys (w : KeyboardPreviewWidget) :
  length (zone_colors w) = 4%nat ->
  Forall valid_zone (keys w) ->
  exists ks',
    animate_breathing w = Some (with_keys ks' w) /\
    Forall2 (breathing_key w) (keys w) ks'.
Proof.
  intros Hn Hkz. unfold animate_breathing.
  edestruct (for_each_from_rel valid_zone (breathing_key w))
    as (ks' & Hrun & Hrel);
    [| exact Hkz | unfold for_each; rewrite Hrun; simpl; exists ks';
                   split; [reflexivity | exact Hrel]].
  intros j k Hk. unfold valid_zone in Hk. simpl.
  destruct (Z.leb_spec 0 (zone_id k - 1)) as [_ | ?]; [| lia].
  destruct (Z.ltb_spec (zone_id k - 1) 4) as [_ | ?]; [| lia]. simpl.
  destruct (py_getitem_in_bounds (zone_colors w) (zone_id k - 1))
    as (c & Hc & _); [rewrite Hn; simpl; lia |].
  rewrite Hc. simpl. eexists. split; [reflexivity |].
  unfold breathing_key; simpl. auto.
Qed.

Lemma Forall2_weaken {A B : Type} (Q Q' : A -> B -> Prop)
    (l : list A) (bs : list B) :
  (forall a b, Q a b -> Q' a b) -> Forall2 Q l bs -> Forall2 Q' l bs.
Proof.
  intros HQ H. induction H; constructor; auto.
Qed.

Section Tick.

Variable setHsv : Z -> Z -> Z -> QColor.

(** C2, amended: in Breathing mode a tick moves the frame counter to
    [f = frame + 1] and gives every key the brightness
    [int(b * (sin(f * 0.1) + 1) / 2)], truncated toward zero, and as its
    colour the unchanged base colour of the key's zone. *)
Theorem breathing_tick_truncates (w : KeyboardPreviewWidget) :
  length (zone_colors w) = 4%nat ->
  Forall valid_zone (keys w) ->
  current_mode w = mode_id Breathing ->
  exists w',
    update_animation setHsv w = Some w' /\
    animation_frame w' = animation_frame w + 1 /\
    zone_colors w' = zone_colors w /\
    Forall2
      (fun k k' =>
         brightness k' =
           py_int (IZR (current_brightness w) * sine_factor (animation_frame w'))
         /\ py_getitem (zone_colors w) (zone_id k - 1) = Some (current_color k'))
      (keys w) (keys w').
Proof.
  intros Hn Hkz Hm. unfold update_animation.
  replace (current_mode (with_frame (animation_frame w + 1) w))
    with 1 by (simpl; symmetry; exact Hm).
  simpl (1 =? 1).
  destruct (animate_breathing_keys (with_frame (animation_frame w + 1) w))
    as (ks' & Hrun & Hrel); [exact Hn | exact Hkz |].
  rewrite Hrun. eexists. split; [reflexivity |]. simpl.
  split; [reflexivity |]. split; [reflexivity |].
  apply (Forall2_weaken _ _ _ _ (fun k k' H => proj2 H)) in Hrel.
  exact Hrel.
Qed.

End Tick.

Lemma breathing_tick_truncates_witness :
  exists w',
    update_animation sextant_hsv breathing_widget = Some w' /\
    animation_frame w' = animation_frame breathing_widget + 1 /\
    zone_colors w' = zone_colors breathing_widget /\
    Forall2
      (fun k k' =>
         brightness k' =
           py_int (IZR (current_brightness breathing_widget) *
                   sine_factor (animation_frame w'))
         /\ py_getitem (zone_colors breathing_widget) (zone_id k - 1) =
            Some (current_color k'))
      (keys breathing_widget) (keys w').
Proof.
  apply (breathing_tick_truncates sextant_hsv breathing_widget).
  - reflexivity.
  - apply initial_widget_well_formed.
  - reflexivity.
Defined.

(** C2 as stated fails: on the widget built by the constructor and switched
    to Breathing, the first tick (frame 1, brightness 100) gives every key
    the brightness 54, whereas rounding the same product gives 55. *)
Lemma breathing_round_counterexample :
  exists w',
    update_mode 1 initial_widget = Some breathing_widget /\
    current_mode breathing_widget = mode_id Breathing /\
    update_animation sextant_hsv breathing_widget = Some w' /\
    animation_frame w' = 1 /\
    keys w' <> [] /\
    Forall (fun k' => brightness k' = 54) (keys w') /\
    py_round (IZR (current_brightness breathing_widget) *
              sine_factor (animation_frame w')) = 55.
Proof.
  destruct (animate_breathing_keys (with_frame 1 breathing_widget))
    as (ks' & Hrun & Hrel).
  - reflexivity.
  - apply initial_widget_well_formed.
  - exists (with_keys ks' (with_frame 1 breathing_widget)).
    split; [vm_compute; reflexivity |].
    split; [reflexivity |].
    split; [exact Hrun |].
    split; [reflexivity |].
    split.
    + simpl. inversion Hrel. discriminate.
    + split.
      * simpl. apply (Forall2_right _ _ _ _ Hrel).
        intros k k' (_ & Hb & _). rewrite Hb. simpl.
        apply breathing_truncated_frame_1.
      * simpl. apply breathing_rounded_frame_1.
Qed.

(** ** Construction *)

(** C4 as stated fails: the four base colours of a fresh widget are
    (50, 255, 50), whose red channel is not the 131 of (131, 184, 26). *)
Lemma default_color_counterexample :
  exists w,
    init = Some w /\
    Forall (fun c => c = mkQColor 50 255 50) (zone_colors w) /\
    zone_colors w <> repeat (mkQColor 131 184 26) 4.
Proof.
  exists initial_widget. split; [exact init_initial_widget |]. split.
  - simpl. repeat constructor.
  - simpl. discriminate.
Qed.

(** C4, amended: the constructor yields mode Wave, brightness 100, speed 5,
    direction 1, frame 0, an armed timer, and four base colours all equal
    to (50, 255, 50), which every key displays at brightness 100. *)
Theorem init_defaults :
  exists w,
    init = Some w /\
    current_mode w = mode_id Wave /\
    current_brightness w = 100 /\
    current_speed w = 5 /\
    current_direction w = direction_id RightToLeft /\
    animation_frame w = 0 /\
    isActive (animation_timer w) = true /\
    zone_colors w = repeat (mkQColor 50 255 50) 4 /\
    length (keys w) = 36%nat /\
    Forall (fun k => current_color k = mkQColor 50 255 50 /\
                     brightness k = 100 /\ valid_zone k) (keys w).
Proof.
  exists initial_widget. split; [exact init_initial_widget |].
  repeat (split; [reflexivity |]).
  unfold initial_widget, initial_keys; simpl.
  repeat (constructor; [unfold valid_zone; simpl; repeat split; lia |]).
  constructor.
Qed.

(** ** The frame counter *)

Lemma key_loop_total (f : Z -> KeyWidget -> option KeyWidget)
    (P : KeyWidget -> Prop) (ks : list KeyWidget) (i : Z) :
  (forall j k, P k -> exists k', f j k = Some k') ->
  Forall P ks ->
  exists ks', for_each_from f i ks = Some ks'.
Proof.
  intros Hf Hks.
  destruct (for_each_from_all P (fun _ => True) f) with (l := ks) (i := i)
    as (ks' & Hrun & _).
  - intros j k Hk. destruct (Hf j k Hk) as (k' & Hk'). exists k'. auto.
  - exact Hks.
  - exists ks'. exact Hrun.
Qed.

Lemma update_keys_shape (w : KeyboardPreviewWidget) :
  length (zone_colors w) = 4%nat ->
  exists ks, update_keys w = Some (with_keys ks w).
Proof.
  intros Hn. unfold update_keys, for_each.
  edestruct (key_loop_total) with (P := fun _ : KeyWidget => True)
    as (ks' & Hrun); [| | rewrite Hrun; simpl; exists ks'; reflexivity].
  - intros j k _. simpl.
    destruct ((0 <=? zone_id k - 1) && (zone_id k - 1 <? 4)) eqn:Hg.
    + apply andb_true_iff in Hg. destruct Hg as [H0 H4].
      apply Z.leb_le in H0. apply Z.ltb_lt in H4.
      destruct (py_getitem_in_bounds (zone_colors w) (zone_id k - 1))
        as (c & Hc & _); [rewrite Hn; simpl; lia |].
      rewrite Hc. simpl. eexists. reflexivity.
    + eexists. reflexivity.
  - apply Forall_forall. intros; exact I.
Qed.

Section Frame.

Variable setHsv : Z -> Z -> Z -> QColor.

(** A tick that does not raise only replaces the keys and moves the frame
    counter on by one. *)
Lemma update_animation_shape (m : Mode) (w : KeyboardPreviewWidget) :
  length (zone_colors w) = 4%nat ->
  Forall valid_zone (keys w) ->
  current_mode w = mode_id m ->
  exists ks,
    update_animation setHsv w =
    Some (with_keys ks (with_frame (animation_frame w + 1) w)).
Proof.
  intros Hn Hkz Hm. unfold update_animation.
  replace (current_mode (with_frame (animation_frame w + 1) w))
    with (mode_id m) by (simpl; symmetry; exact Hm).
  set (w1 := with_frame (animation_frame w + 1) w).
  assert (Hn1 : length (zone_colors w1) = 4%nat) by exact Hn.
  assert (Hkz1 : Forall valid_zone (keys w1)) by exact Hkz.
  destruct m; simpl.
  - exists (keys w). reflexivity.
  - destruct (animate_breathing_keys w1 Hn1 Hkz1) as (ks & Hrun & _).
    exists ks. exact Hrun.
  - unfold animate_neon, for_enumerate.
    edestruct key_loop_total with (P := valid_zone) as (ks & Hrun);
      [| exact Hkz1 | rewrite Hrun; exists ks; reflexivity].
    intros j k _. eexists. reflexivity.
  - unfold animate_wave, for_each.
    edestruct key_loop_total with (P := valid_zone) as (ks & Hrun);
      [| exact Hkz1 | rewrite Hrun; exists ks; reflexivity].
    intros j k _. eexists. reflexivity.
  - unfold animate_shifting, for_each.
    destruct (py_getitem_in_bounds (zone_colors w1) 0) as (o & Ho & _);
      [rewrite Hn1; simpl; lia |].
    rewrite Ho. simpl.
    edestruct key_loop_total with (P := valid_zone) as (ks & Hrun);
      [| exact Hkz1 | rewrite Hrun; exists ks; reflexivity].
    intros j k _. eexists. reflexivity.
  - unfold animate_zoom, for_enumerate.
    edestruct key_loop_total with (P := valid_zone) as (ks & Hrun);
      [| exact Hkz1 | rewrite Hrun; exists ks; reflexivity].
    intros j k Hk. unfold valid_zone in Hk. simpl.
    destruct (py_getitem_in_bounds (zone_colors w) (zone_id k - 1))
      as (c & Hc & _); [rewrite Hn; simpl; lia |].
    rewrite Hc. simpl. eexists. reflexivity.
Qed.

(** C5, amended: in each of the six modes, Static included, a delivered
    tick advances the frame counter by exactly one; the counter stays
    frozen in Static mode only because [update_mode] to Static leaves the
    timer stopped (and the counter untouched), so that no tick arrives. *)
Theorem tick_advances_frame (m : Mode) (w : KeyboardPreviewWidget) :
  length (zone_colors w) = 4%nat ->
  Forall valid_zone (keys w) ->
  current_mode w = mode_id m ->
  (exists w',
     update_animation setHsv w = Some w' /\
     animation_frame w' = animation_frame w + 1) /\
  (exists ws,
     update_mode (mode_id Static) w = Some ws /\
     current_mode ws = mode_id Static /\
     isActive (animation_timer ws) = false /\
     animation_frame ws = animation_frame w).
Proof.
  intros Hn Hkz Hm. split.
  - destruct (update_animation_shape m w Hn Hkz Hm) as (ks & Hrun).
    eexists. split; [exact Hrun | reflexivity].
  - unfold update_mode, update_animation_mode. simpl.
    destruct (update_keys_shape
                (with_timer (timer_stop (animation_timer w)) (with_mode 0 w)))
      as (ks1 & Hrun1); [exact Hn |].
    rewrite Hrun1. simpl.
    destruct (update_keys_shape
                (with_keys ks1
                   (with_timer (timer_stop (animation_timer w))
                      (with_mode 0 w))))
      as (ks2 & Hrun2); [exact Hn |].
    rewrite Hrun2. eexists. split; [reflexivity |].
    simpl. auto.
Qed.

(** C6: while the mode is Static, a delivered tick succeeds and leaves
    every key (displayed colour, displayed brightness, painted colour) as
    it was, whatever the frame counter; so does any number of ticks in a
    row. *)
Theorem static_ticks_change_no_key (n : nat) (w : KeyboardPreviewWidget) :
  current_mode w = mode_id Static ->
  update_animation setHsv w = Some (with_frame (animation_frame w + 1) w) /\
  exists w',
    ticks setHsv n w = Some w' /\
    keys w' = keys w /\
    zone_colors w' = zone_colors w /\
    current_brightness w' = current_brightness w /\
    current_mode w' = mode_id Static.
Proof.
  intros Hm.
  assert (Hstep : forall v, current_mode v = 0 ->
            update_animation setHsv v =
            Some (with_frame (animation_frame v + 1) v)).
  { intros v Hv. unfold update_animation.
    replace (current_mode (with_frame (animation_frame v + 1) v))
      with 0 by (simpl; symmetry; exact Hv).
    reflexivity. }
  split; [apply Hstep; exact Hm |].
  revert w Hm. induction n as [| n IH]; intros w Hm.
  - exists w. simpl. auto.
  - simpl. rewrite (Hstep w Hm). simpl.
    destruct (IH (with_frame (animation_frame w + 1) w) Hm)
      as (w' & Hrun & Hk & Hz & Hb & Hm').
    exists w'. split; [exact Hrun |]. simpl in Hk, Hz, Hb. auto.
Qed.

End Frame.

(** C5 as stated fails: on the widget switched to Static, a tick moves the
    frame counter from 0 to 1. *)
Lemma static_tick_counterexample :
  exists w',
    update_mode (mode_id Static) initial_widget = Some static_widget /\
    current_mode static_widget = mode_id Static /\
    animation_frame static_widget = 0 /\
    update_animation sextant_hsv static_widget = Some w' /\
    animation_frame w' = 1.
Proof.
  exists (with_frame 1 static_widget).
  split; [vm_compute; reflexivity |].
  repeat split; reflexivity.
Qed.

Lemma tick_advances_frame_witness :
  (exists w',
     update_animation sextant_hsv initial_widget = Some w' /\
     animation_frame w' = animation_frame initial_widget + 1) /\
  (exists ws,
     update_mode (mode_id Static) initial_widget = Some ws /\
     current_mode ws = mode_id Static /\
     isActive (animation_timer ws) = false /\
     animation_frame ws = animation_frame initial_widget).
Proof.
  apply (tick_advances_frame sextant_hsv Wave initial_widget).
  - reflexivity.
  - apply initial_widget_well_formed.
  - reflexivity.
Defined.

Lemma static_ticks_change_no_key_witness :
  update_animation sextant_hsv static_widget =
    Some (with_frame (animation_frame static_widget + 1) static_widget) /\
  exists w',
    ticks sextant_hsv 3 static_widget = Some w' /\
    keys w' = keys static_widget /\
    zone_colors w' = zone_colors static_widget /\
    current_brightness w' = current_brightness static_widget /\
    current_mode w' = mode_id Static.
Proof.
  apply (static_ticks_change_no_key sextant_hsv 3 static_widget). reflexivity.
Defined.

(** ** Ranges of what a tick displays *)

Section Properties.

Variable setHsv : Z -> Z -> Z -> QColor.

(** What the engine relies on from Qt: a colour set from a hue in
    [0, 360) at full saturation and value has its channels in [0, 255]. *)
Hypothesis setHsv_valid :
  forall h, 0 <= h < 360 -> valid_color (setHsv h 255 255).

(** ** Each animation keeps the widget well formed *)

Lemma animate_breathing_well_formed (w : KeyboardPreviewWidget) :
  well_formed w ->
  exists w', animate_breathing w = Some w' /\ well_formed w'.
Proof.
  intros Hw. pose proof Hw as [Hb Hn Hz Hkz Hks]. unfold animate_breathing.
  assert (Heff : 0 <= py_int (IZR (current_brightness w) *
                              sine_factor (animation_frame w)) <= 100).
  { apply scaled_in_range; [exact Hb | apply sine_factor_bounds]. }
  edestruct key_loop_in_range as (ks' & Hrun & Hzs' & Hks');
    [| exact Hkz | unfold for_each; rewrite Hrun; simpl; eexists;
                   split; [reflexivity |];
                   apply with_keys_well_formed; assumption].
  intros j k Hk. unfold valid_zone in Hk. simpl.
  destruct (Z.leb_spec 0 (zone_id k - 1)) as [_ | ?]; [| lia].
  destruct (Z.ltb_spec (zone_id k - 1) 4) as [_ | ?]; [| lia]. simpl.
  destruct (zone_color_lookup w (zone_id k - 1) Hn Hz) as (c & Hc & Hv);
    [lia |].
  rewrite Hc. simpl. eexists. split; [reflexivity |]. split.
  - exact Hk.
  - apply set_color_in_range; assumption.
Qed.

Lemma animate_neon_well_formed (w : KeyboardPreviewWidget) :
  well_formed w ->
  exists w', animate_neon setHsv w = Some w' /\ well_formed w'.
Proof.
  intros Hw. pose proof Hw as [Hb Hn Hz Hkz Hks]. unfold animate_neon.
  edestruct key_loop_in_range as (ks' & Hrun & Hzs' & Hks');
    [| exact Hkz | unfold for_enumerate; rewrite Hrun; simpl; eexists;
                   split; [reflexivity |];
                   apply with_keys_well_formed; assumption].
  intros i k Hk. simpl. eexists. split; [reflexivity |]. split.
  - exact Hk.
  - apply set_color_in_range; [| exact Hb].
    apply setHsv_valid. apply Z.mod_pos_bound. lia.
Qed.

Lemma animate_wave_well_formed (w : KeyboardPreviewWidget) :
  well_formed w ->
  exists w', animate_wave setHsv w = Some w' /\ well_formed w'.
Proof.
  intros Hw. pose proof Hw as [Hb Hn Hz Hkz Hks]. unfold animate_wave.
  edestruct key_loop_in_range as (ks' & Hrun & Hzs' & Hks');
    [| exact Hkz | unfold for_each; rewrite Hrun; simpl; eexists;
                   split; [reflexivity |];
                   apply with_keys_well_formed; assumption].
  intros j k Hk. simpl. eexists. split; [reflexivity |]. split.
  - exact Hk.
  - apply set_color_in_range.
    + apply setHsv_valid. apply wave_hue_range. apply wave_pos_range.
    + apply scaled_in_range; [exact Hb |].
      match goal with
      | |- context [sin ?x] => pose proof (SIN_bound x) as [Hlo Hhi]
      end.
      lra.
Qed.

Lemma animate_shifting_well_formed (w : KeyboardPreviewWidget) :
  well_formed w ->
  exists w', animate_shifting setHsv w = Some w' /\ well_formed w'.
Proof.
  intros Hw. pose proof Hw as [Hb Hn Hz Hkz Hks]. unfold animate_shifting.
  destruct (zone_color_lookup w 0 Hn Hz) as (o & Ho & (Hor & Hog & Hob));
    [lia |].
  rewrite Ho. simpl.
  assert (Hbase : valid_color (setHsv ((animation_frame w * 2) mod 360) 255 255))
    by (apply setHsv_valid; apply Z.mod_pos_bound; lia).
  destruct Hbase as (Hbr & Hbg & Hbb).
  edestruct key_loop_in_range as (ks' & Hrun & Hzs' & Hks');
    [| exact Hkz | unfold for_each; rewrite Hrun; simpl; eexists;
                   split; [reflexivity |];
                   apply with_keys_well_formed; assumption].
  intros j k Hk. simpl. eexists. split; [reflexivity |]. split.
  - exact Hk.
  - apply set_color_in_range; [| exact Hb].
    unfold valid_color; simpl.
    split; [| split]; apply mix_channel_in_range;
      try assumption; apply shift_amount_bounds.
Qed.

Lemma animate_zoom_well_formed (w : KeyboardPreviewWidget) :
  well_formed w ->
  exists w', animate_zoom w = Some w' /\ well_formed w'.
Proof.
  intros Hw. pose proof Hw as [Hb Hn Hz Hkz Hks]. unfold animate_zoom.
  pose proof (sine_factor_bounds (animation_frame w)) as Hzf.
  edestruct key_loop_in_range as (ks' & Hrun & Hzs' & Hks');
    [| exact Hkz | unfold for_enumerate; rewrite Hrun; simpl; eexists;
                   split; [reflexivity |];
                   apply with_keys_well_formed; assumption].
  intros i k Hk. unfold valid_zone in Hk. simpl.
  destruct (zone_color_lookup w (zone_id k - 1) Hn Hz)
    as (c & Hc & (Hcr & Hcg & Hcb)); [lia |].
  rewrite Hc. simpl. eexists. split; [reflexivity |]. split.
  - exact Hk.
  - apply set_color_in_range.
    + unfold valid_color; simpl.
      split; [| split]; apply zoom_channel_in_range; assumption.
    + apply scaled_in_range; [exact Hb | lra].
Qed.

Lemma update_animation_well_formed (m : Mode) (w : KeyboardPreviewWidget) :
  well_formed w ->
  current_mode w = mode_id m ->
  exists w',
    update_animation setHsv w = Some w' /\
    well_formed w' /\
    current_mode w' = mode_id m.
Proof.
  intros Hw Hm.
  assert (Hw1 : well_formed (with_frame (animation_frame w + 1) w))
    by (apply with_frame_well_formed; exact Hw).
  assert (Hgoal : exists w',
             update_animation setHsv w = Some w' /\ well_formed w').
  { unfold update_animation.
    replace (current_mode (with_frame (animation_frame w + 1) w))
      with (mode_id m) by (simpl; symmetry; exact Hm).
    destruct m; simpl.
    - eexists. split; [reflexivity | exact Hw1].
    - apply animate_breathing_well_formed; exact Hw1.
    - apply animate_neon_well_formed; exact Hw1.
    - apply animate_wave_well_formed; exact Hw1.
    - apply animate_shifting_well_formed; exact Hw1.
    - apply animate_zoom_well_formed; exact Hw1. }
  destruct Hgoal as (w' & Hrun & Hw').
  exists w'. split; [exact Hrun |]. split; [exact Hw' |].
  destruct (update_animation_shape setHsv m w) as (ks & Hshape);
    [apply wf_zone_count; exact Hw | apply wf_key_zones; exact Hw | exact Hm |].
  rewrite Hshape in Hrun. injection Hrun as <-. exact Hm.
Qed.

(** C1: for each of the six modes, whatever the frame counter, a tick on a
    widget whose base colours have channels in 0..255 and whose brightness
    is in 0..100 succeeds, and afterwards every key displays a brightness
    in 0..100 and colours (the one set and the one painted) with every
    channel in 0..255; the same holds after any number of ticks. *)
Theorem tick_output_in_range (m : Mode) (w : KeyboardPreviewWidget)
    (n : nat) :
  well_formed w ->
  current_mode w = mode_id m ->
  (exists w',
     update_animation setHsv w = Some w' /\
     well_formed w' /\
     Forall key_in_range (keys w')) /\
  (exists wn,
     ticks setHsv n w = Some wn /\
     animation_frame wn = animation_frame w + Z.of_nat n /\
     Forall key_in_range (keys wn)).
Proof.
  intros Hw Hm. split.
  - destruct (update_animation_well_formed m w Hw Hm) as (w' & Hrun & Hw' & _).
    exists w'. split; [exact Hrun |]. split; [exact Hw' |].
    apply wf_keys. exact Hw'.
  - revert w Hw Hm. induction n as [| n IH]; intros w Hw Hm.
    + exists w. split; [reflexivity |]. split; [simpl; lia |].
      apply wf_keys. exact Hw.
    + destruct (update_animation_well_formed m w Hw Hm)
        as (w' & Hrun & Hw' & Hm').
      destruct (IH w' Hw' Hm') as (wn & Hticks & Hframe & Hkeys).
      exists wn. cbn [ticks]. rewrite Hrun. cbn [bind].
      split; [exact Hticks |]. split; [| exact Hkeys].
      destruct (update_animation_shape setHsv m w) as (ks & Hshape);
        [apply wf_zone_count; exact Hw | apply wf_key_zones; exact Hw
        | exact Hm |].
      rewrite Hshape in Hrun. injection Hrun as <-.
      simpl in Hframe. lia.
Qed.

End Properties.

Lemma tick_output_in_range_witness :
  (exists w',
     update_animation sextant_hsv initial_widget = Some w' /\
     well_formed w' /\
     Forall key_in_range (keys w')) /\
  (exists wn,
     ticks sextant_hsv 10 initial_widget = Some wn /\
     animation_frame wn = animation_frame initial_widget + Z.of_nat 10 /\
     Forall key_in_range (keys wn)).
Proof.
  apply (tick_output_in_range sextant_hsv sextant_hsv_valid Wave
           initial_widget 10).
  - exact initial_widget_well_formed.
  - reflexivity.
Defined.

(** ** Wave *)

Lemma wave_pos_direction (d : Direction) (f z : Z) :
  wave_pos (direction_id d) f z = spec_wave_pos d f z.
Proof. destruct d; reflexivity. Qed.

Section WaveZoom.

Variable setHsv : Z -> Z -> Z -> QColor.

Lemma animate_wave_keys (w : KeyboardPreviewWidget) :
  exists ks',
    animate_wave setHsv w = Some (with_keys ks' w) /\
    Forall2
      (fun k k' =>
         wave_key setHsv (current_brightness w)
           (wave_pos (current_direction w) (animation_frame w) (zone_id k - 1))
           k')
      (keys w) ks'.
Proof.
  unfold animate_wave, for_each.
  edestruct (for_each_from_rel (fun _ : KeyWidget => True)
               (fun k k' =>
                  wave_key setHsv (current_brightness w)
                    (wave_pos (current_direction w) (animation_frame w)
                       (zone_id k - 1))
                    k'))
    as (ks' & Hrun & Hrel);
    [| apply Forall_forall; intros; exact I
     | rewrite Hrun; simpl; exists ks'; split; [reflexivity | exact Hrel]].
  intros j k _. simpl. eexists. split; [reflexivity |].
  unfold wave_key. simpl. auto.
Qed.

(** C7: in Wave mode a tick moves the frame counter to [f = frame + 1]
    and treats every key of zone index [z] with the wave position
    [(f - z*10) mod 100] when the direction is right-to-left and
    [(f + z*10) mod 100] when it is left-to-right; that position lies in
    0..99, and for [z = 0] the two directions give the same position. *)
Theorem wave_tick_positions (d : Direction) (w : KeyboardPreviewWidget) :
  current_mode w = mode_id Wave ->
  current_direction w = direction_id d ->
  exists w',
    update_animation setHsv w = Some w' /\
    animation_frame w' = animation_frame w + 1 /\
    Forall2
      (fun k k' =>
         let p := spec_wave_pos d (animation_frame w') (zone_id k - 1) in
         0 <= p <= 99 /\ wave_key setHsv (current_brightness w) p k')
      (keys w) (keys w') /\
    (forall z,
       0 <= spec_wave_pos RightToLeft (animation_frame w') z <= 99 /\
       0 <= spec_wave_pos LeftToRight (animation_frame w') z <= 99) /\
    spec_wave_pos RightToLeft (animation_frame w') 0 =
    spec_wave_pos LeftToRight (animation_frame w') 0.
Proof.
  intros Hm Hd. unfold update_animation.
  replace (current_mode (with_frame (animation_frame w + 1) w))
    with 3 by (simpl; symmetry; exact Hm).
  simpl (3 =? _).
  destruct (animate_wave_keys (with_frame (animation_frame w + 1) w))
    as (ks' & Hrun & Hrel).
  cbv iota. rewrite Hrun. eexists. split; [reflexivity |]. simpl.
  split; [reflexivity |]. split; [| split].
  - simpl in Hrel. rewrite Hd in Hrel.
    apply (Forall2_weaken _ _ _ _) with (2 := Hrel).
    intros k k' Hk. rewrite wave_pos_direction in Hk.
    split; [| exact Hk].
    rewrite <- wave_pos_direction.
    pose proof (wave_pos_range (direction_id d) (animation_frame w + 1)
                  (zone_id k - 1)).
    lia.
  - intros z. unfold spec_wave_pos.
    pose proof (Z.mod_pos_bound (animation_frame w + 1 - z * 10) 100).
    pose proof (Z.mod_pos_bound (animation_frame w + 1 + z * 10) 100).
    lia.
  - unfold spec_wave_pos. f_equal; lia.
Qed.

(** ** Zoom *)

Lemma zoom_channel_clamped (c : Z) (zf : R) : zoom_channel c zf <= 255.
Proof. unfold zoom_channel. lia. Qed.

Lemma zoom_channel_boundary : zoom_channel 255 1 = 255.
Proof.
  unfold zoom_channel.
  replace (IZR 255 * (0.8 + 0.2 * 1))%R with (IZR 255) by lra.
  rewrite py_int_IZR. reflexivity.
Qed.

Lemma animate_zoom_keys (w : KeyboardPreviewWidget) :
  length (zone_colors w) = 4%nat ->
  Forall valid_zone (keys w) ->
  exists ks',
    animate_zoom w = Some (with_keys ks' w) /\
    Forall2 (zoom_key w) (keys w) ks'.
Proof.
  intros Hn Hkz. unfold animate_zoom, for_enumerate.
  edestruct (for_each_from_rel valid_zone (zoom_key w))
    as (ks' & Hrun & Hrel);
    [| exact Hkz
     | rewrite Hrun; simpl; exists ks'; split; [reflexivity | exact Hrel]].
  intros j k Hk. unfold valid_zone in Hk. simpl.
  destruct (py_getitem_in_bounds (zone_colors w) (zone_id k - 1))
    as (c & Hc & _); [rewrite Hn; simpl; lia |].
  rewrite Hc. simpl. eexists. split; [reflexivity |].
  exists c. split; [exact Hc |]. simpl. auto.
Qed.

(** C8: in Zoom mode a tick gives every key the colour whose channels are
    the base channels scaled by [0.8 + 0.2 * zoom_factor], truncated and
    clamped by [min(255, .)]; no such channel exceeds 255, whatever the
    frame counter and the base channel, and a base channel 255 at
    [zoom_factor = 1] gives exactly 255. *)
Theorem zoom_tick_channels_clamped (w : KeyboardPreviewWidget) :
  length (zone_colors w) = 4%nat ->
  Forall valid_zone (keys w) ->
  current_mode w = mode_id Zoom ->
  exists w',
    update_animation setHsv w = Some w' /\
    Forall2 (zoom_key (with_frame (animation_frame w + 1) w)) (keys w) (keys w') /\
    Forall (fun k' => channels_at_most 255 (current_color k')) (keys w') /\
    (forall c zf, zoom_channel c zf <= 255) /\
    zoom_channel 255 1 = 255.
Proof.
  intros Hn Hkz Hm. unfold update_animation.
  replace (current_mode (with_frame (animation_frame w + 1) w))
    with 5 by (simpl; symmetry; exact Hm).
  simpl (5 =? _). cbv iota.
  destruct (animate_zoom_keys (with_frame (animation_frame w + 1) w))
    as (ks' & Hrun & Hrel); [exact Hn | exact Hkz |].
  rewrite Hrun. eexists. split; [reflexivity |].
  split; [exact Hrel |]. split; [| split].
  - simpl. apply (Forall2_right _ _ _ _ Hrel).
    intros k k' (base & _ & Hc & _). rewrite Hc.
    unfold channels_at_most; simpl.
    repeat split; apply zoom_channel_clamped.
  - exact zoom_channel_clamped.
  - exact zoom_channel_boundary.
Qed.

End WaveZoom.

Lemma wave_tick_positions_witness :
  exists w',
    update_animation sextant_hsv initial_widget = Some w' /\
    animation_frame w' = animation_frame initial_widget + 1 /\
    Forall2
      (fun k k' =>
         let p := spec_wave_pos RightToLeft (animation_frame w') (zone_id k - 1) in
         0 <= p <= 99 /\
         wave_key sextant_hsv (current_brightness initial_widget) p k')
      (keys initial_widget) (keys w') /\
    (forall z,
       0 <= spec_wave_pos RightToLeft (animation_frame w') z <= 99 /\
       0 <= spec_wave_pos LeftToRight (animation_frame w') z <= 99) /\
    spec_wave_pos RightToLeft (animation_frame w') 0 =
    spec_wave_pos LeftToRight (animation_frame w') 0.
Proof.
  apply (wave_tick_positions sextant_hsv RightToLeft initial_widget);
    reflexivity.
Defined.

Lemma zoom_tick_channels_clamped_witness :
  exists w',
    update_animation sextant_hsv zoom_widget = Some w' /\
    Forall2 (zoom_key (with_frame (animation_frame zoom_widget + 1) zoom_widget))
      (keys zoom_widget) (keys w') /\
    Forall (fun k' => channels_at_most 255 (current_color k')) (keys w') /\
    (forall c zf, zoom_channel c zf <= 255) /\
    zoom_channel 255 1 = 255.
Proof.
  apply (zoom_tick_channels_clamped sextant_hsv zoom_widget).
  - reflexivity.
  - apply initial_widget_well_formed.
  - reflexivity.
Defined.

(** ** Colour updates *)

Lemma replace_nth_length {A : Type} (l : list A) (n : nat) (v : A) :
  length (replace_nth l n v) = length l.
Proof.
  revert n. induction l as [| a l IH]; intros [| n]; simpl; auto.
Qed.

Lemma py_setitem_in_bounds {A : Type} (l : list A) (i : Z) (v : A) :
  0 <= i < Z.of_nat (length l) ->
  py_setitem l i v = Some (replace_nth l (Z.to_nat i) v).
Proof.
  intros [H0 Hn]. unfold py_setitem.
  destruct (Z.leb_spec 0 i) as [_ | ?]; [| lia].
  destruct (Z.ltb_spec i (Z.of_nat (length l))) as [_ | ?]; [| lia].
  reflexivity.
Qed.

(** The loop of [update_color] over a list of four colours. *)
Lemma set_all_zones (zc : list QColor) (c : QColor) :
  length zc = 4%nat ->
  for_fold (fun i l => py_setitem l i c) (py_range 4) zc = Some (repeat c 4).
Proof.
  intros Hn.
  destruct zc as [| c0 [| c1 [| c2 [| c3 [| c4 zc]]]]]; try discriminate Hn.
  reflexivity.
Qed.

Lemma py_getitem_repeat {A : Type} (c x : A) (n : nat) (i : Z) :
  py_getitem (repeat c n) i = Some x -> x = c.
Proof.
  unfold py_getitem. intros H.
  assert (Hin : In x (repeat c n)).
  { destruct ((0 <=? i) && (i <? Z.of_nat (length (repeat c n)))).
    - eapply nth_error_In; eassumption.
    - destruct ((- Z.of_nat (length (repeat c n)) <=? i) && (i <? 0)).
      + eapply nth_error_In; eassumption.
      + discriminate H. }
  apply repeat_spec in Hin. exact Hin.
Qed.

Lemma update_keys_keys (w : KeyboardPreviewWidget) :
  length (zone_colors w) = 4%nat ->
  exists ks',
    update_keys w = Some (with_keys ks' w) /\
    Forall2 (refreshed_key w) (keys w) ks'.
Proof.
  intros Hn. unfold update_keys, for_each.
  edestruct (for_each_from_rel (fun _ : KeyWidget => True) (refreshed_key w))
    as (ks' & Hrun & Hrel);
    [| apply Forall_forall; intros; exact I
     | rewrite Hrun; simpl; exists ks'; split; [reflexivity | exact Hrel]].
  intros j k _. simpl. unfold refreshed_key, valid_zone.
  destruct (Z.leb_spec 0 (zone_id k - 1)) as [H0 | H0];
    destruct (Z.ltb_spec (zone_id k - 1) 4) as [H4 | H4]; simpl;
    try (eexists; split; [reflexivity |];
         split; [reflexivity |]; split; [intros; lia | reflexivity]).
  destruct (py_getitem_in_bounds (zone_colors w) (zone_id k - 1))
    as (c & Hc & _); [rewrite Hn; simpl; lia |].
  rewrite Hc. simpl. eexists. split; [reflexivity |]. simpl.
  split; [reflexivity |]. split; [auto | intros Hnot; exfalso; apply Hnot; lia].
Qed.

(** C10: when the mode is Neon or Wave, [update_color] returns the widget
    as it was (base colours, keys and all), whatever the colour; in Static,
    Breathing, Shifting and Zoom it sets all four base colours to the new
    colour, and every key of zones 1..4 displays it. *)
Theorem update_color_by_mode (m : Mode) (color : QColor)
    (w : KeyboardPreviewWidget) :
  length (zone_colors w) = 4%nat ->
  current_mode w = mode_id m ->
  match m with
  | Neon | Wave => update_color color w = Some w
  | Static | Breathing | Shifting | Zoom =>
      exists w',
        update_color color w = Some w' /\
        zone_colors w' = repeat color 4 /\
        Forall (fun k' => valid_zone k' -> current_color k' = color) (keys w')
  end.
Proof.
  intros Hn Hm.
  assert (Hacc : py_in (mode_id m) color_modes = true ->
            exists w',
              update_color color w = Some w' /\
              zone_colors w' = repeat color 4 /\
              Forall (fun k' => valid_zone k' -> current_color k' = color)
                (keys w')).
  { intros Hin. unfold update_color. rewrite Hm, Hin.
    rewrite (set_all_zones _ color Hn). cbn [bind].
    destruct (update_keys_keys (with_zone_colors (repeat color 4) w))
      as (ks' & Hrun & Hrel); [reflexivity |].
    rewrite Hrun. eexists. split; [reflexivity |]. split; [reflexivity |].
    simpl. apply (Forall2_right _ _ _ _ Hrel).
    intros k k' (Hz & Hval & _) Hk'.
    unfold valid_zone in Hk', Hval. rewrite Hz in Hk'.
    destruct (Hval Hk') as [Hc _]. simpl in Hc.
    apply py_getitem_repeat with (n := 4%nat) (i := zone_id k - 1) in Hc.
    exact Hc. }
  destruct m; try (apply Hacc; reflexivity);
    unfold update_color; rewrite Hm; reflexivity.
Qed.

Lemma update_color_by_mode_witness :
  update_color (mkQColor 255 0 0) initial_widget = Some initial_widget.
Proof.
  apply (update_color_by_mode Wave (mkQColor 255 0 0) initial_widget);
    reflexivity.
Defined.

(** ** Applying a state dictionary *)

Lemma update_zone_color_shape (zone : Z) (color : QColor)
    (w : KeyboardPreviewWidget) :
  length (zone_colors w) = 4%nat ->
  exists ks,
    update_zone_color zone color w =
    Some (with_keys ks
            (with_zone_colors
               (if (1 <=? zone) && (zone <=? 4)
                then replace_nth (zone_colors w) (Z.to_nat (zone - 1)) color
                else zone_colors w)
               w)).
Proof.
  intros Hn. unfold update_zone_color.
  destruct ((1 <=? zone) && (zone <=? 4)) eqn:Hg.
  - apply andb_true_iff in Hg. destruct Hg as [H1 H4].
    apply Z.leb_le in H1. apply Z.leb_le in H4.
    rewrite py_setitem_in_bounds by (rewrite Hn; simpl; lia).
    cbn [bind].
    destruct (update_keys_shape
                (with_zone_colors
                   (replace_nth (zone_colors w) (Z.to_nat (zone - 1)) color) w))
      as (ks & Hrun).
    + simpl. rewrite replace_nth_length. exact Hn.
    + rewrite Hrun. exists ks. reflexivity.
  - exists (keys w). destruct w; reflexivity.
Qed.

Lemma update_color_shape (color : QColor) (w : KeyboardPreviewWidget) :
  length (zone_colors w) = 4%nat ->
  exists ks,
    update_color color w =
    Some (with_keys ks
            (with_zone_colors
               (if py_in (current_mode w) color_modes
                then repeat color 4 else zone_colors w)
               w)).
Proof.
  intros Hn. unfold update_color.
  destruct (py_in (current_mode w) color_modes).
  - rewrite (set_all_zones _ color Hn). cbn [bind].
    destruct (update_keys_shape (with_zone_colors (repeat color 4) w))
      as (ks & Hrun); [reflexivity |].
    rewrite Hrun. exists ks. reflexivity.
  - exists (keys w). destruct w; reflexivity.
Qed.

Lemma update_mode_shape (mode : Z) (w : KeyboardPreviewWidget) :
  length (zone_colors w) = 4%nat ->
  exists ks t,
    update_mode mode w = Some (with_keys ks (with_timer t (with_mode mode w))) /\
    isActive t = py_in mode animated_modes.
Proof.
  intros Hn. unfold update_mode, update_animation_mode, start_animation.
  cbn [current_mode with_mode].
  destruct (py_in mode animated_modes).
  - cbn [bind].
    destruct (update_keys_shape
                (with_timer
                   (timer_start 100 (animation_timer (with_mode mode w)))
                   (with_mode mode w)))
      as (ks & Hrun); [exact Hn |].
    rewrite Hrun. eexists. eexists. split; reflexivity.
  - destruct (update_keys_shape
                (with_timer (timer_stop (animation_timer (with_mode mode w)))
                   (with_mode mode w)))
      as (ks1 & Hrun1); [exact Hn |].
    rewrite Hrun1. cbn [bind].
    destruct (update_keys_shape
                (with_keys ks1
                   (with_timer
                      (timer_stop (animation_timer (with_mode mode w)))
                      (with_mode mode w))))
      as (ks2 & Hrun2); [exact Hn |].
    rewrite Hrun2. eexists. eexists. split; reflexivity.
Qed.

Lemma update_speed_fields (speed : Z) (w : KeyboardPreviewWidget) :
  current_mode (update_speed speed w) = current_mode w /\
  current_brightness (update_speed speed w) = current_brightness w /\
  current_speed (update_speed speed w) = speed /\
  current_direction (update_speed speed w) = current_direction w /\
  zone_colors (update_speed speed w) = zone_colors w /\
  animation_frame (update_speed speed w) = animation_frame w /\
  keys (update_speed speed w) = keys w.
Proof.
  unfold update_speed, update_animation_speed.
  destruct (isActive (animation_timer (with_speed speed w)));
    simpl; repeat split; reflexivity.
Qed.

(** The run of [update_from_state]: everything up to the final
    [update_speed], with the fields of the widget handed to it. *)
Lemma update_from_state_run (state : StateDict) (w : KeyboardPreviewWidget) :
  length (zone_colors w) = 4%nat ->
  exists w2,
    update_from_state state w =
      Some (update_speed (dict_get (d_speed state) 5) w2) /\
    current_mode w2 = dict_get (d_mode state) 3 /\
    current_brightness w2 = dict_get (d_brightness state) 100 /\
    current_direction w2 = dict_get (d_direction state) 1 /\
    zone_colors w2 = state_zone_colors state (zone_colors w) /\
    animation_frame w2 = animation_frame w /\
    isActive (animation_timer w2) =
      py_in (dict_get (d_mode state) 3) animated_modes.
Proof.
  intros Hn.
  unfold update_from_state, state_zone_colors.
  destruct (dict_get (d_color state) (50, 255, 50)) as [[r g] b].
  set (w0 := with_direction (dict_get (d_direction state) 1)
               (with_speed (dict_get (d_speed state) 5)
                  (with_brightness (dict_get (d_brightness state) 100)
                     (with_mode (dict_get (d_mode state) 3) w)))).
  assert (Hn0 : length (zone_colors w0) = 4%nat) by exact Hn.
  change (current_mode w0) with (dict_get (d_mode state) 3).
  assert (Hcol : exists ks zc,
             (if dict_get (d_mode state) 3 =? 0
              then update_zone_color (dict_get (d_zone state) 1)
                     (mkQColor r g b) w0
              else update_color (mkQColor r g b) w0) =
             Some (with_keys ks (with_zone_colors zc w0)) /\
             length zc = 4%nat /\
             zc =
             (if dict_get (d_mode state) 3 =? 0
              then
                if (1 <=? dict_get (d_zone state) 1) &&
                   (dict_get (d_zone state) 1 <=? 4)
                then replace_nth (zone_colors w)
                       (Z.to_nat (dict_get (d_zone state) 1 - 1))
                       (mkQColor r g b)
                else zone_colors w
              else if py_in (dict_get (d_mode state) 3) color_modes
                   then repeat (mkQColor r g b) 4
                   else zone_colors w)).
  { destruct (dict_get (d_mode state) 3 =? 0).
    - destruct (update_zone_color_shape (dict_get (d_zone state) 1)
                  (mkQColor r g b) w0 Hn0) as (ks & Hrun).
      exists ks. eexists. split; [exact Hrun |]. split; [| reflexivity].
      destruct ((1 <=? dict_get (d_zone state) 1) &&
                (dict_get (d_zone state) 1 <=? 4));
        [rewrite replace_nth_length |]; exact Hn0.
    - destruct (update_color_shape (mkQColor r g b) w0 Hn0) as (ks & Hrun).
      exists ks. eexists. split; [exact Hrun |]. split; [| reflexivity].
      destruct (py_in (current_mode w0) color_modes);
        [reflexivity | exact Hn0]. }
  destruct Hcol as (ks & zc & Hrun & Hlen & Hzc).
  rewrite Hrun. cbn [bind].
  destruct (update_mode_shape
              (current_mode (with_keys ks (with_zone_colors zc w0)))
              (with_keys ks (with_zone_colors zc w0)))
    as (ks2 & t & Hrun2 & Ht); [exact Hlen |].
  rewrite Hrun2. cbn [bind]. eexists. split; [reflexivity |].
  simpl. repeat (split; [reflexivity |]). split; [exact Hzc |].
  split; [reflexivity | exact Ht].
Qed.

(** C9, amended: [update_from_state] sets mode, brightness, speed and
    direction to the value in the dictionary when the key is present and to
    the defaults 3, 100, 5 and 1 when it is absent; the colour (default
    (50, 255, 50)) goes to the named zone (default 1) in Static mode, to all
    four zones in Breathing, Shifting and Zoom, and is dropped in Neon and
    Wave; the frame counter is kept.  [handle_set_mode] forwards the mode,
    3 when absent, and exactly the optional keys present in the request. *)
Theorem update_from_state_fields (state : StateDict)
    (w : KeyboardPreviewWidget) :
  length (zone_colors w) = 4%nat ->
  (exists w',
     update_from_state state w = Some w' /\
     current_mode w' = dict_get (d_mode state) 3 /\
     current_brightness w' = dict_get (d_brightness state) 100 /\
     current_speed w' = dict_get (d_speed state) 5 /\
     current_direction w' = dict_get (d_direction state) 1 /\
     zone_colors w' = state_zone_colors state (zone_colors w) /\
     animation_frame w' = animation_frame w) /\
  handle_set_mode_args state =
    (dict_get (d_mode state) 3,
     mkStateDict None (d_brightness state) (d_speed state)
       (d_direction state) (d_color state) (d_zone state)).
Proof.
  intros Hn. split.
  - destruct (update_from_state_run state w Hn)
      as (w2 & Hrun & Hm & Hb & Hd & Hz & Hf & _).
    destruct (update_speed_fields (dict_get (d_speed state) 5) w2)
      as (Em & Eb & Es & Ed & Ez & Ef & _).
    eexists. split; [exact Hrun |].
    rewrite Em, Eb, Es, Ed, Ez, Ef. auto 10.
  - unfold handle_set_mode_args.
    destruct (d_brightness state), (d_speed state), (d_color state),
      (d_direction state), (d_zone state); reflexivity.
Qed.

Lemma update_from_state_fields_witness :
  (exists w',
     update_from_state (mkStateDict (Some 1) None None None None None)
       speed7_widget = Some w' /\
     current_mode w' = 1 /\
     current_brightness w' = 100 /\
     current_speed w' = 5 /\
     current_direction w' = 1 /\
     zone_colors w' = repeat (mkQColor 50 255 50) 4 /\
     animation_frame w' = 0) /\
  handle_set_mode_args (mkStateDict (Some 1) None None None None None) =
    (1, mkStateDict None None None None None None).
Proof.
  apply (update_from_state_fields
           (mkStateDict (Some 1) None None None None None) speed7_widget).
  reflexivity.
Defined.

(** C9 as stated fails.  With speed 7 set beforehand, a dictionary holding
    only the mode puts the speed back to 5, so an absent field is not left
    at its previous value; and in Wave mode a dictionary that holds a colour
    leaves the base colours as they were, so a present field is not
    applied. *)
Lemma update_from_state_counterexample :
  exists w1 w2,
    update_speed 7 initial_widget = speed7_widget /\
    current_speed speed7_widget = 7 /\
    update_from_state (mkStateDict (Some 3) None None None None None)
      speed7_widget = Some w1 /\
    current_speed w1 = 5 /\
    update_from_state
      (mkStateDict (Some 3) None None None (Some (255, 0, 0)) None)
      initial_widget = Some w2 /\
    zone_colors w2 = repeat (mkQColor 50 255 50) 4.
Proof.
  eexists. eexists.
  split; [reflexivity |]. split; [reflexivity |].
  split; [vm_compute; reflexivity |]. split; [reflexivity |].
  split; [vm_compute; reflexivity |]. reflexivity.
Qed.

(** ** The timer *)

(** C3 as stated fails: right after construction the widget is animating
    (Wave mode, timer armed) at speed 5, and the interval is the 100 ms of
    [start_animation], not max(50, 250 - 5*20) = 150. *)
Lemma initial_interval_counterexample :
  exists w,
    init = Some w /\
    py_in (current_mode w) animated_modes = true /\
    isActive (animation_timer w) = true /\
    current_speed w = 5 /\
    interval (animation_timer w) = 100 /\
    Z.max 50 (250 - current_speed w * 20) = 150.
Proof.
  exists initial_widget. repeat split; reflexivity.
Qed.

(** C3, amended: a speed update made while the timer is armed leaves it
    armed with the interval max(50, 250 - speed*20), which is
    250 - speed*20 for a speed in 1..9, 230 ms at speed 1 and 70 ms at
    speed 9; so does [update_from_state] with an animated mode, for the
    speed of the dictionary (5 when absent); [start_animation] in an
    animated mode arms the timer at 100 ms whatever the speed. *)
Theorem speed_update_sets_interval (w : KeyboardPreviewWidget) (speed : Z)
    (state : StateDict) :
  length (zone_colors w) = 4%nat ->
  (isActive (animation_timer w) = true ->
   isActive (animation_timer (update_speed speed w)) = true /\
   current_speed (update_speed speed w) = speed /\
   interval (animation_timer (update_speed speed w)) =
     Z.max 50 (250 - speed * 20) /\
   (1 <= speed <= 9 ->
    interval (animation_timer (update_speed speed w)) = 250 - speed * 20) /\
   interval (animation_timer (update_speed 1 w)) = 230 /\
   interval (animation_timer (update_speed 9 w)) = 70) /\
  (py_in (dict_get (d_mode state) 3) animated_modes = true ->
   exists w',
     update_from_state state w = Some w' /\
     isActive (animation_timer w') = true /\
     current_speed w' = dict_get (d_speed state) 5 /\
     interval (animation_timer w') =
       Z.max 50 (250 - dict_get (d_speed state) 5 * 20)) /\
  (py_in (current_mode w) animated_modes = true ->
   animation_timer (start_animation w) = mkQTimer true 100).
Proof.
  intros Hn. split; [| split].
  - intros Hact.
    assert (Hshape : forall s,
               update_speed s w =
               with_timer (mkQTimer true (Z.max 50 (250 - s * 20)))
                 (with_speed s w)).
    { intros s. unfold update_speed, update_animation_speed. simpl.
      rewrite Hact. unfold timer_setInterval. simpl. rewrite Hact.
      reflexivity. }
    rewrite !Hshape.
    cbn [animation_timer current_speed with_timer with_speed isActive interval].
    split; [reflexivity |]. split; [reflexivity |]. split; [reflexivity |].
    split; [intros Hs; lia |]. split; reflexivity.
  - intros Hm.
    destruct (update_from_state_run state w Hn)
      as (w2 & Hrun & _ & _ & _ & _ & _ & Ht).
    rewrite Hm in Ht.
    exists (update_speed (dict_get (d_speed state) 5) w2).
    split; [exact Hrun |].
    unfold update_speed, update_animation_speed. simpl.
    rewrite Ht. unfold timer_setInterval. simpl. rewrite Ht. auto.
  - intros Hm. unfold start_animation. rewrite Hm. reflexivity.
Qed.

Lemma speed_update_sets_interval_witness :
  interval (animation_timer (update_speed 7 initial_widget)) = 110 /\
  (exists w',
     update_from_state (mkStateDict (Some 1) None (Some 9) None None None)
       initial_widget = Some w' /\
     isActive (animation_timer w') = true /\
     current_speed w' = 9 /\
     interval (animation_timer w') = 70) /\
  animation_timer (start_animation initial_widget) = mkQTimer true 100.
Proof.
  destruct (speed_update_sets_interval initial_widget 7
              (mkStateDict (Some 1) None (Some 9) None None None) eq_refl)
    as (Hspeed & Hstate & Hstart).
  split; [| split].
  - destruct (Hspeed eq_refl) as (_ & _ & Hi & _). exact Hi.
  - exact (Hstate eq_refl).
  - exact (Hstart eq_refl).
Defined.

(** * Further properties of the widget *)

(** ** Refreshing the keys *)

Lemma for_each_from_map {A B : Type} (f : Z -> A -> option B) (g : A -> B)
    (l : list A) (i : Z) :
  (forall j a, In a l -> f j a = Some (g a)) ->
  for_each_from f i l = Some (map g l).
Proof.
  revert i. induction l as [| a l IH]; intros i Hf.
  - reflexivity.
  - simpl. rewrite (Hf i a) by (left; reflexivity). cbn [bind].
    rewrite IH by (intros j b Hb; apply Hf; right; exact Hb).
    reflexivity.
Qed.

Lemma update_keys_exact (w : KeyboardPreviewWidget) :
  length (zone_colors w) = 4%nat -> update_keys w = Some (refresh w).
Proof.
  intros Hn. unfold update_keys, for_each, refresh.
  rewrite for_each_from_map with (g := refresh_key w); [reflexivity |].
  intros _ k _. unfold refresh_key. cbv zeta.
  destruct ((0 <=? zone_id k - 1) && (zone_id k - 1 <? 4)) eqn:Hg;
    [| reflexivity].
  apply andb_true_iff in Hg. destruct Hg as [H0 H4].
  apply Z.leb_le in H0. apply Z.ltb_lt in H4.
  destruct (py_getitem_in_bounds (zone_colors w) (zone_id k - 1))
    as (c & Hc & _); [rewrite Hn; simpl; lia |].
  rewrite Hc. reflexivity.
Qed.

Lemma refresh_key_zone (w : KeyboardPreviewWidget) (k : KeyWidget) :
  zone_id (refresh_key w k) = zone_id k.
Proof.
  unfold refresh_key. cbv zeta.
  destruct ((0 <=? zone_id k - 1) && (zone_id k - 1 <? 4)); [| reflexivity].
  destruct (py_getitem (zone_colors w) (zone_id k - 1)); reflexivity.
Qed.

Lemma refresh_key_ext (w1 w2 : KeyboardPreviewWidget) (k : KeyWidget) :
  zone_colors w1 = zone_colors w2 ->
  current_brightness w1 = current_brightness w2 ->
  refresh_key w1 k = refresh_key w2 k.
Proof.
  intros Hz Hb. unfold refresh_key. rewrite Hz, Hb. reflexivity.
Qed.

Lemma refresh_key_idem (w : KeyboardPreviewWidget) (k : KeyWidget) :
  refresh_key w (refresh_key w k) = refresh_key w k.
Proof.
  unfold refresh_key at 1. cbv zeta. rewrite refresh_key_zone.
  unfold refresh_key. cbv zeta.
  destruct ((0 <=? zone_id k - 1) && (zone_id k - 1 <? 4)); [| reflexivity].
  destruct (py_getitem (zone_colors w) (zone_id k - 1)); reflexivity.
Qed.

Lemma map_zone_refresh (w : KeyboardPreviewWidget) (ks : list KeyWidget) :
  map zone_id (map (refresh_key w) ks) = map zone_id ks.
Proof.
  rewrite map_map. apply map_ext. intros k. apply refresh_key_zone.
Qed.

Lemma keys_refreshed_refresh (w : KeyboardPreviewWidget) :
  keys_refreshed (refresh w).
Proof.
  unfold keys_refreshed, refresh. simpl. rewrite map_map.
  apply map_ext. intros k.
  rewrite (refresh_key_ext _ w) by reflexivity.
  apply refresh_key_idem.
Qed.

Lemma keys_refreshed_ext (w1 w2 : KeyboardPreviewWidget) :
  zone_colors w1 = zone_colors w2 ->
  current_brightness w1 = current_brightness w2 ->
  keys w1 = keys w2 ->
  keys_refreshed w1 -> keys_refreshed w2.
Proof.
  unfold keys_refreshed. intros Hz Hb Hk H. rewrite <- Hk.
  rewrite <- H at 2. apply map_ext. intros k. symmetry.
  apply refresh_key_ext; assumption.
Qed.

(** X13: [update_keys] is idempotent: on a widget with four base colours a
    second refresh right after the first returns the very same widget. *)
Theorem update_keys_idempotent (w : KeyboardPreviewWidget) :
  length (zone_colors w) = 4%nat ->
  exists w1,
    update_keys w = Some w1 /\ update_keys w1 = Some w1.
Proof.
  intros Hn. exists (refresh w). split; [apply update_keys_exact; exact Hn |].
  rewrite update_keys_exact by exact Hn.
  unfold refresh at 1. rewrite (keys_refreshed_refresh w).
  destruct w; reflexivity.
Qed.

Lemma update_keys_idempotent_witness :
  exists w1,
    update_keys initial_widget = Some w1 /\ update_keys w1 = Some w1.
Proof.
  apply (update_keys_idempotent initial_widget). reflexivity.
Defined.

(** ** What each method returns *)

Lemma update_color_exact (color : QColor) (w : KeyboardPreviewWidget) :
  length (zone_colors w) = 4%nat ->
  update_color color w =
  Some (if py_in (current_mode w) color_modes
        then refresh (with_zone_colors (repeat color 4) w)
        else w).
Proof.
  intros Hn. unfold update_color.
  destruct (py_in (current_mode w) color_modes); [| reflexivity].
  rewrite (set_all_zones _ color Hn). cbn [bind].
  apply update_keys_exact. reflexivity.
Qed.

Lemma update_zone_color_exact (zone : Z) (color : QColor)
    (w : KeyboardPreviewWidget) :
  length (zone_colors w) = 4%nat ->
  update_zone_color zone color w =
  Some (if (1 <=? zone) && (zone <=? 4)
        then refresh
               (with_zone_colors
                  (replace_nth (zone_colors w) (Z.to_nat (zone - 1)) color) w)
        else w).
Proof.
  intros Hn. unfold update_zone_color.
  destruct ((1 <=? zone) && (zone <=? 4)) eqn:Hg; [| reflexivity].
  apply andb_true_iff in Hg. destruct Hg as [H1 H4].
  apply Z.leb_le in H1. apply Z.leb_le in H4.
  rewrite py_setitem_in_bounds by (rewrite Hn; simpl; lia).
  cbn [bind]. apply update_keys_exact.
  simpl. rewrite replace_nth_length. exact Hn.
Qed.

Lemma refresh_refresh (w : KeyboardPreviewWidget) :
  refresh (refresh w) = refresh w.
Proof.
  unfold refresh at 1. rewrite (keys_refreshed_refresh w).
  destruct w; reflexivity.
Qed.

Lemma update_mode_exact (mode : Z) (w : KeyboardPreviewWidget) :
  length (zone_colors w) = 4%nat ->
  update_mode mode w =
  Some (refresh
          (with_timer
             (if py_in mode animated_modes
              then timer_start 100 (animation_timer w)
              else timer_stop (animation_timer w))
             (with_mode mode w))).
Proof.
  intros Hn. unfold update_mode, update_animation_mode, start_animation.
  cbn [current_mode with_mode].
  destruct (py_in mode animated_modes).
  - cbn [bind]. apply update_keys_exact. exact Hn.
  - rewrite update_keys_exact by exact Hn. cbn [bind].
    rewrite update_keys_exact by exact Hn.
    rewrite refresh_refresh. reflexivity.
Qed.

(** ** The invariant of a session *)

Lemma key_zones_valid (ks : list KeyWidget) :
  map zone_id ks = map zone_id initial_keys -> Forall valid_zone ks.
Proof.
  intros H.
  assert (Hall : Forall (fun z => 1 <= z <= 4) (map zone_id ks)).
  { rewrite H. simpl. repeat (constructor; [lia |]). constructor. }
  rewrite Forall_map in Hall. exact Hall.
Qed.

Lemma refresh_invariant (w : KeyboardPreviewWidget) :
  length (zone_colors w) = 4%nat ->
  map zone_id (keys w) = map zone_id initial_keys ->
  isActive (animation_timer w) = py_in (current_mode w) animated_modes ->
  50 <= interval (animation_timer w) ->
  engine_invariant (refresh w).
Proof.
  intros Hn Hz Ht Hi. constructor.
  - exact Hn.
  - simpl. rewrite map_zone_refresh. exact Hz.
  - exact Ht.
  - exact Hi.
  - intros _. apply keys_refreshed_refresh.
Qed.

(** Projections of a widget rebuilt by the [with_] functions. *)
Ltac fields :=
  cbn [animation_timer animation_frame current_mode current_colors
       current_brightness current_speed current_direction keys zone_colors
       with_timer with_frame with_mode with_brightness with_speed
       with_direction with_keys with_zone_colors refresh
       timer_start timer_stop timer_setInterval isActive interval].

Lemma update_speed_invariant (speed : Z) (w : KeyboardPreviewWidget) :
  engine_invariant w -> engine_invariant (update_speed speed w).
Proof.
  intros [Hn Hz Ht Hi Hs]. unfold update_speed, update_animation_speed.
  fields.
  destruct (isActive (animation_timer w)) eqn:Hact.
  - constructor; fields; try assumption.
    + rewrite Hact. exact Ht.
    + lia.
  - constructor; fields; try assumption.
    rewrite Hact. exact Ht.
Qed.

Lemma Forall2_map_eq {A B C : Type} (g : A -> C) (h : B -> C)
    (l : list A) (bs : list B) :
  Forall2 (fun a b => h b = g a) l bs -> map h bs = map g l.
Proof.
  intros H. induction H as [| a b l bs Hab _ IH]; simpl.
  - reflexivity.
  - rewrite Hab, IH. reflexivity.
Qed.

Section Session.

Variable setHsv : Z -> Z -> Z -> QColor.

(** A tick on a widget of a session: only the frame counter and what the
    keys display change, and the keys stay in their zones. *)
Lemma update_animation_exact (w : KeyboardPreviewWidget) :
  length (zone_colors w) = 4%nat ->
  Forall valid_zone (keys w) ->
  exists ks,
    update_animation setHsv w =
      Some (with_keys ks (with_frame (animation_frame w + 1) w)) /\
    map zone_id ks = map zone_id (keys w) /\
    (py_in (current_mode w) animated_modes = false -> ks = keys w).
Proof.
  intros Hn Hkz. unfold update_animation.
  cbn [current_mode with_frame].
  set (w1 := with_frame (animation_frame w + 1) w).
  assert (Hn1 : length (zone_colors w1) = 4%nat) by exact Hn.
  assert (Hloop : forall f i,
            (forall j k, valid_zone k ->
               exists k', f j k = Some k' /\ zone_id k' = zone_id k) ->
            exists ks,
              for_each_from f i (keys w) = Some ks /\
              map zone_id ks = map zone_id (keys w)).
  { intros f i Hf.
    destruct (for_each_from_rel valid_zone
                (fun k k' => zone_id k' = zone_id k) f Hf (keys w) i Hkz)
      as (ks & Hrun & Hrel).
    exists ks. split; [exact Hrun |]. apply Forall2_map_eq. exact Hrel. }
  destruct (Z.eqb_spec (current_mode w) 1) as [E1 | N1].
  { unfold animate_breathing, for_each.
    edestruct Hloop as (ks & Hrun & Hz);
      [| change (keys w1) with (keys w); rewrite Hrun; exists ks;
         split; [reflexivity |]; split; [exact Hz |];
         rewrite E1; discriminate].
    intros j k Hk. unfold valid_zone in Hk. cbv beta zeta.
    assert (Hg : (0 <=? zone_id k - 1) && (zone_id k - 1 <? 4) = true)
      by (apply andb_true_iff; split; [apply Z.leb_le | apply Z.ltb_lt]; lia).
    rewrite Hg.
    destruct (py_getitem_in_bounds (zone_colors w1) (zone_id k - 1))
      as (c & Hc & _); [rewrite Hn1; simpl; lia |].
    rewrite Hc. cbn [bind]. eexists. split; reflexivity. }
  destruct (Z.eqb_spec (current_mode w) 2) as [E2 | N2].
  { unfold animate_neon, for_enumerate.
    edestruct Hloop as (ks & Hrun & Hz);
      [| change (keys w1) with (keys w); rewrite Hrun; exists ks;
         split; [reflexivity |]; split; [exact Hz |];
         rewrite E2; discriminate].
    intros j k _. eexists. split; reflexivity. }
  destruct (Z.eqb_spec (current_mode w) 3) as [E3 | N3].
  { unfold animate_wave, for_each.
    edestruct Hloop as (ks & Hrun & Hz);
      [| change (keys w1) with (keys w); rewrite Hrun; exists ks;
         split; [reflexivity |]; split; [exact Hz |];
         rewrite E3; discriminate].
    intros j k _. eexists. split; reflexivity. }
  destruct (Z.eqb_spec (current_mode w) 4) as [E4 | N4].
  { unfold animate_shifting, for_each.
    destruct (py_getitem_in_bounds (zone_colors w1) 0) as (o & Ho & _);
      [rewrite Hn1; simpl; lia |].
    rewrite Ho. cbn [bind].
    edestruct Hloop as (ks & Hrun & Hz);
      [| change (keys w1) with (keys w); rewrite Hrun; exists ks;
         split; [reflexivity |]; split; [exact Hz |];
         rewrite E4; discriminate].
    intros j k _. eexists. split; reflexivity. }
  destruct (Z.eqb_spec (current_mode w) 5) as [E5 | N5].
  { unfold animate_zoom, for_enumerate.
    edestruct Hloop as (ks & Hrun & Hz);
      [| change (keys w1) with (keys w); rewrite Hrun; exists ks;
         split; [reflexivity |]; split; [exact Hz |];
         rewrite E5; discriminate].
    intros j k Hk. unfold valid_zone in Hk. cbv beta zeta.
    destruct (py_getitem_in_bounds (zone_colors w1) (zone_id k - 1))
      as (c & Hc & _); [rewrite Hn1; simpl; lia |].
    rewrite Hc. cbn [bind]. eexists. split; reflexivity. }
  exists (keys w). split; [| split; [reflexivity | intros _; reflexivity]].
  unfold w1. destruct w; reflexivity.
Qed.

Lemma run_call_invariant (c : Call) (w : KeyboardPreviewWidget) :
  engine_invariant w ->
  exists w',
    run_call setHsv c w = Some w' /\
    engine_invariant w' /\
    animation_frame w' = animation_frame w + (if is_tick c then 1 else 0).
Proof.
  intros Hinv. pose proof Hinv as [Hn Hz Ht Hi Hs].
  destruct c as [color | zone color | b | mode | speed | direction | state |];
    cbn [run_call is_tick].
  - rewrite update_color_exact by exact Hn.
    eexists. split; [reflexivity |].
    destruct (py_in (current_mode w) color_modes).
    + split; [apply refresh_invariant; first [assumption | reflexivity] | simpl; lia].
    + split; [exact Hinv | lia].
  - rewrite update_zone_color_exact by exact Hn.
    eexists. split; [reflexivity |].
    destruct ((1 <=? zone) && (zone <=? 4)).
    + split; [| simpl; lia].
      apply refresh_invariant; try assumption.
      simpl. rewrite replace_nth_length. exact Hn.
    + split; [exact Hinv | lia].
  - unfold update_brightness. rewrite update_keys_exact by exact Hn.
    eexists. split; [reflexivity |].
    split; [| simpl; lia].
    apply refresh_invariant; assumption.
  - rewrite update_mode_exact by exact Hn.
    eexists. split; [reflexivity |]. split; [| simpl; lia].
    apply refresh_invariant; try assumption.
    + fields. destruct (py_in mode animated_modes); reflexivity.
    + fields. destruct (py_in mode animated_modes); fields; lia.
  - eexists. split; [reflexivity |]. split.
    + apply update_speed_invariant. exact Hinv.
    + destruct (update_speed_fields speed w) as (_ & _ & _ & _ & _ & Hf & _).
      rewrite Hf. lia.
  - eexists. split; [reflexivity |]. split; [| simpl; lia].
    unfold update_direction. constructor; fields; assumption.
  - unfold update_from_state.
    destruct (dict_get (d_color state) (50, 255, 50)) as [[r g] bl].
    set (w0 := with_direction (dict_get (d_direction state) 1)
                 (with_speed (dict_get (d_speed state) 5)
                    (with_brightness (dict_get (d_brightness state) 100)
                       (with_mode (dict_get (d_mode state) 3) w)))).
    assert (Hcol : exists w1,
               (if current_mode w0 =? 0
                then update_zone_color (dict_get (d_zone state) 1)
                       (mkQColor r g bl) w0
                else update_color (mkQColor r g bl) w0) = Some w1 /\
               length (zone_colors w1) = 4%nat /\
               map zone_id (keys w1) = map zone_id initial_keys /\
               animation_timer w1 = animation_timer w /\
               animation_frame w1 = animation_frame w /\
               current_mode w1 = dict_get (d_mode state) 3 /\
               current_speed w1 = dict_get (d_speed state) 5).
    { destruct (current_mode w0 =? 0).
      - rewrite update_zone_color_exact by exact Hn.
        eexists. split; [reflexivity |].
        destruct ((1 <=? dict_get (d_zone state) 1) &&
                  (dict_get (d_zone state) 1 <=? 4)); simpl;
          rewrite ?map_zone_refresh, ?replace_nth_length; auto 10.
      - rewrite update_color_exact by exact Hn.
        eexists. split; [reflexivity |].
        destruct (py_in (current_mode w0) color_modes); simpl;
          rewrite ?map_zone_refresh; auto 10. }
    destruct Hcol as (w1 & Hrun & Hn1 & Hz1 & Ht1 & Hf1 & Hm1 & Hs1).
    rewrite Hrun. cbn [bind].
    rewrite update_mode_exact by exact Hn1. cbn [bind].
    eexists. split; [reflexivity |]. split.
    + apply update_speed_invariant. apply refresh_invariant.
      * exact Hn1.
      * exact Hz1.
      * fields. destruct (py_in (current_mode w1) animated_modes); reflexivity.
      * fields. rewrite Ht1.
        destruct (py_in (current_mode w1) animated_modes); fields; lia.
    + match goal with
      | |- animation_frame (update_speed ?s ?x) = _ =>
          destruct (update_speed_fields s x) as (_ & _ & _ & _ & _ & Hf & _)
      end.
      rewrite Hf. simpl. rewrite Hf1. lia.
  - destruct (update_animation_exact w Hn (key_zones_valid _ Hz))
      as (ks & Hrun & Hzs & Hstatic).
    rewrite Hrun. eexists. split; [reflexivity |]. split; [| reflexivity].
    constructor; simpl; try assumption.
    + rewrite Hzs. exact Hz.
    + intros Hm. rewrite (Hstatic Hm).
      apply (keys_refreshed_ext w); auto.
Qed.

Lemma run_calls_invariant (cs : list Call) (w : KeyboardPreviewWidget) :
  engine_invariant w ->
  exists w',
    run_calls setHsv cs w = Some w' /\
    engine_invariant w' /\
    animation_frame w' =
      animation_frame w + Z.of_nat (length (filter is_tick cs)).
Proof.
  revert w. induction cs as [| c cs IH]; intros w Hinv.
  - exists w. split; [reflexivity |]. split; [exact Hinv | simpl; lia].
  - destruct (run_call_invariant c w Hinv) as (w1 & Hrun & Hinv1 & Hf1).
    destruct (IH w1 Hinv1) as (w' & Hruns & Hinv' & Hf').
    exists w'. unfold run_calls in *. cbn [for_fold]. rewrite Hrun.
    cbn [bind]. split; [exact Hruns |]. split; [exact Hinv' |].
    rewrite Hf', Hf1. cbn [filter].
    destruct (is_tick c); simpl length; lia.
Qed.

Lemma initial_widget_invariant : engine_invariant initial_widget.
Proof.
  constructor; try reflexivity.
  - simpl. lia.
Qed.

Lemma session_invariant (cs : list Call) :
  exists w,
    session setHsv cs = Some w /\
    engine_invariant w /\
    animation_frame w = Z.of_nat (length (filter is_tick cs)).
Proof.
  destruct (run_calls_invariant cs initial_widget initial_widget_invariant)
    as (w & Hrun & Hinv & Hf).
  exists w. unfold session. rewrite init_initial_widget. cbn [bind].
  split; [exact Hrun |]. split; [exact Hinv |]. rewrite Hf. reflexivity.
Qed.

End Session.

Lemma map_fixed_Forall {A : Type} (f : A -> A) (l : list A) :
  map f l = l -> Forall (fun a => f a = a) l.
Proof.
  induction l as [| a l IH]; intros H.
  - constructor.
  - simpl in H. injection H as Ha Hl. constructor; auto.
Qed.

Section SessionProperties.

Variable setHsv : Z -> Z -> Z -> QColor.


(** X2: at every point of a session the timer is armed exactly when the
    mode is one of the animated modes 1..5 (so in Static mode, and in any
    mode number outside 0..5, no tick is scheduled), and its interval is
    never below 50 ms. *)
Theorem session_timer_follows_mode (cs : list Call) :
  exists w,
    session setHsv cs = Some w /\
    isActive (animation_timer w) = py_in (current_mode w) animated_modes /\
    50 <= interval (animation_timer w).
Proof.
  destruct (session_invariant setHsv cs) as (w & Hrun & [_ _ Ht Hi _] & _).
  exists w. auto.
Qed.

(** X3: the frame counter of a session is the number of ticks delivered so
    far: every tick adds one, in whatever mode, and no other call touches
    it; in particular it never decreases. *)
Theorem session_frame_counts_ticks (cs : list Call) :
  exists w,
    session setHsv cs = Some w /\
    animation_frame w = Z.of_nat (length (filter is_tick cs)) /\
    forall c, exists w',
      session setHsv (cs ++ [c]) = Some w' /\
      animation_frame w' =
        animation_frame w + (if is_tick c then 1 else 0).
Proof.
  destruct (session_invariant setHsv cs) as (w & Hrun & Hinv & Hf).
  exists w. split; [exact Hrun |]. split; [exact Hf |].
  intros c.
  destruct (session_invariant setHsv (cs ++ [c])) as (w' & Hrun' & _ & Hf').
  exists w'. split; [exact Hrun' |].
  rewrite Hf', Hf, filter_app, length_app. cbn [filter].
  destruct (is_tick c); simpl length; lia.
Qed.

(** X4: whenever a session leaves the widget in a mode that is not
    animated (Static, or a number outside 0..5), every key displays the
    base colour of its zone at the current brightness, painted as
    [set_color] paints that colour at that brightness. *)
Theorem session_static_display (cs : list Call) :
  exists w,
    session setHsv cs = Some w /\
    (py_in (current_mode w) animated_modes = false ->
     Forall
       (fun k =>
          exists c,
            py_getitem (zone_colors w) (zone_id k - 1) = Some c /\
            current_color k = c /\
            brightness k = current_brightness w /\
            background k = background (set_color c (current_brightness w) k))
       (keys w)).
Proof.
  destruct (session_invariant setHsv cs) as (w & Hrun & [Hn Hz _ _ Hs] & _).
  exists w. split; [exact Hrun |]. intros Hm.
  pose proof (map_fixed_Forall _ _ (Hs Hm)) as Hfix.
  pose proof (key_zones_valid _ Hz) as Hval.
  rewrite Forall_forall in *. intros k Hk.
  specialize (Hfix k Hk). specialize (Hval k Hk).
  unfold valid_zone in Hval. unfold refresh_key in Hfix. cbv zeta in Hfix.
  assert (Hg : (0 <=? zone_id k - 1) && (zone_id k - 1 <? 4) = true)
    by (apply andb_true_iff; split; [apply Z.leb_le | apply Z.ltb_lt]; lia).
  rewrite Hg in Hfix.
  destruct (py_getitem_in_bounds (zone_colors w) (zone_id k - 1))
    as (c & Hc & _); [rewrite Hn; simpl; lia |].
  rewrite Hc in Hfix. exists c. split; [exact Hc |].
  rewrite <- Hfix at 1 2 3. simpl. repeat split.
Qed.

End SessionProperties.

(** ** Brightness zero *)

Lemma set_color_off (c : QColor) (k : KeyWidget) : off_key (set_color c 0 k).
Proof. split; reflexivity. Qed.

Lemma py_int_zero_product (b : Z) (x : R) :
  b = 0 -> py_int (IZR b * x) = 0.
Proof.
  intros ->. replace (IZR 0 * x)%R with (IZR 0) by (simpl; lra).
  apply py_int_IZR.
Qed.

Section BrightnessZero.

Variable setHsv : Z -> Z -> Z -> QColor.

(** X5: brightness 0 shows every key as off, whatever the colours.  After
    [update_brightness(0)], and after a tick of any of the five animated
    modes on a widget whose brightness is 0, every key has brightness 0
    and is painted dark gray (30, 30, 30). *)
Theorem brightness_zero_paints_gray (m : Mode) (w : KeyboardPreviewWidget) :
  length (zone_colors w) = 4%nat ->
  Forall valid_zone (keys w) ->
  (exists w1,
     update_brightness 0 w = Some w1 /\ Forall off_key (keys w1)) /\
  (current_brightness w = 0 ->
   current_mode w = mode_id m ->
   m <> Static ->
   exists w',
     update_animation setHsv w = Some w' /\ Forall off_key (keys w')).
Proof.
  intros Hn Hkz. split.
  - unfold update_brightness. rewrite update_keys_exact by exact Hn.
    eexists. split; [reflexivity |]. fields.
    apply Forall_map. apply (Forall_impl _ (P := valid_zone)); [| exact Hkz].
    intros k Hk. unfold valid_zone in Hk. unfold refresh_key. cbv zeta.
    assert (Hg : (0 <=? zone_id k - 1) && (zone_id k - 1 <? 4) = true)
      by (apply andb_true_iff; split; [apply Z.leb_le | apply Z.ltb_lt]; lia).
    rewrite Hg. fields.
    destruct (py_getitem_in_bounds (zone_colors w) (zone_id k - 1))
      as (c & Hc & _); [rewrite Hn; simpl; lia |].
    rewrite Hc. apply set_color_off.
  - intros Hb Hm Hns. unfold update_animation.
    replace (current_mode (with_frame (animation_frame w + 1) w))
      with (mode_id m) by (simpl; symmetry; exact Hm).
    set (w1 := with_frame (animation_frame w + 1) w).
    assert (Hn1 : length (zone_colors w1) = 4%nat) by exact Hn.
    assert (Hb1 : current_brightness w1 = 0) by exact Hb.
    assert (Hloop : forall f i,
              (forall j k, valid_zone k ->
                 exists k', f j k = Some k' /\ off_key k') ->
              exists ks,
                for_each_from f i (keys w1) = Some ks /\ Forall off_key ks).
    { intros f i Hf.
      apply (for_each_from_all valid_zone off_key f Hf). exact Hkz. }
    destruct m; [contradiction Hns; reflexivity | | | | |]; simpl.
    + unfold animate_breathing, for_each.
      edestruct Hloop as (ks & Hrun & Hoff);
        [| rewrite Hrun; eexists; split; [reflexivity | exact Hoff]].
      intros j k Hk. unfold valid_zone in Hk. cbv beta zeta.
      assert (Hg : (0 <=? zone_id k - 1) && (zone_id k - 1 <? 4) = true)
        by (apply andb_true_iff; split; [apply Z.leb_le | apply Z.ltb_lt];
            lia).
      rewrite Hg.
      destruct (py_getitem_in_bounds (zone_colors w1) (zone_id k - 1))
        as (c & Hc & _); [rewrite Hn1; simpl; lia |].
      rewrite Hc. cbn [bind]. eexists. split; [reflexivity |].
      rewrite py_int_zero_product by exact Hb1. apply set_color_off.
    + unfold animate_neon, for_enumerate.
      edestruct Hloop as (ks & Hrun & Hoff);
        [| rewrite Hrun; eexists; split; [reflexivity | exact Hoff]].
      intros j k _. cbv beta zeta. eexists. split; [reflexivity |].
      rewrite Hb1. apply set_color_off.
    + unfold animate_wave, for_each.
      edestruct Hloop as (ks & Hrun & Hoff);
        [| rewrite Hrun; eexists; split; [reflexivity | exact Hoff]].
      intros j k _. cbv beta zeta. eexists. split; [reflexivity |].
      rewrite py_int_zero_product by exact Hb1. apply set_color_off.
    + unfold animate_shifting, for_each.
      destruct (py_getitem_in_bounds (zone_colors w1) 0) as (o & Ho & _);
        [rewrite Hn1; simpl; lia |].
      rewrite Ho. cbn [bind].
      edestruct Hloop as (ks & Hrun & Hoff);
        [| rewrite Hrun; eexists; split; [reflexivity | exact Hoff]].
      intros j k _. cbv beta zeta. eexists. split; [reflexivity |].
      rewrite Hb1. apply set_color_off.
    + unfold animate_zoom, for_enumerate.
      edestruct Hloop as (ks & Hrun & Hoff);
        [| rewrite Hrun; eexists; split; [reflexivity | exact Hoff]].
      intros j k Hk. unfold valid_zone in Hk. cbv beta zeta.
      destruct (py_getitem_in_bounds (zone_colors w1) (zone_id k - 1))
        as (c & Hc & _); [rewrite Hn1; simpl; lia |].
      rewrite Hc. cbn [bind]. eexists. split; [reflexivity |].
      rewrite py_int_zero_product by exact Hb1. apply set_color_off.
Qed.

End BrightnessZero.

Lemma brightness_zero_paints_gray_witness :
  (exists w1,
     update_brightness 0 (with_brightness 0 initial_widget) = Some w1 /\
     Forall off_key (keys w1)) /\
  (exists w',
     update_animation sextant_hsv (with_brightness 0 initial_widget) = Some w' /\
     Forall off_key (keys w')).
Proof.
  destruct (brightness_zero_paints_gray sextant_hsv Wave
              (with_brightness 0 initial_widget) eq_refl
              (wf_key_zones _ initial_widget_well_formed))
    as (Hupd & Htick).
  split; [exact Hupd |].
  apply Htick; [reflexivity | reflexivity | discriminate].
Defined.

(** ** Periods, and what a tick does not read *)

Lemma for_each_from_ext {A B : Type} (f g : Z -> A -> option B)
    (l : list A) (i : Z) :
  (forall j a, f j a = g j a) ->
  for_each_from f i l = for_each_from g i l.
Proof.
  intros Hfg. revert i. induction l as [| a l IH]; intros i.
  - reflexivity.
  - simpl. rewrite Hfg, IH. reflexivity.
Qed.

Lemma wave_pos_period (d f z n : Z) :
  wave_pos d (f + 100 * n) z = wave_pos d f z.
Proof.
  unfold wave_pos. destruct (d =? 1).
  - replace (f + 100 * n - z * 10) with (f - z * 10 + n * 100) by lia.
    apply Z_mod_plus_full.
  - replace (f + 100 * n + z * 10) with (f + z * 10 + n * 100) by lia.
    apply Z_mod_plus_full.
Qed.

Section Periods.

Variable setHsv : Z -> Z -> Z -> QColor.

(** X6: Neon repeats every 180 frames and Wave every 100.  In Neon mode
    (period 180) and in Wave mode (period 100), a tick at a frame counter
    moved by any whole number of periods gives the keys exactly the same
    display. *)
Theorem neon_wave_periodic (m : Mode) (p n : Z) (w : KeyboardPreviewWidget) :
  (m = Neon /\ p = 180) \/ (m = Wave /\ p = 100) ->
  current_mode w = mode_id m ->
  option_map keys
    (update_animation setHsv (with_frame (animation_frame w + p * n) w)) =
  option_map keys (update_animation setHsv w).
Proof.
  intros Hmp Hm. unfold update_animation. fields. rewrite Hm.
  destruct Hmp as [[-> ->] | [-> ->]]; cbn [mode_id Z.eqb Pos.eqb].
  - unfold animate_neon, for_enumerate. fields.
    rewrite (for_each_from_ext _
               (fun i key =>
                  Some (set_color
                          (setHsv
                             (((animation_frame w + 1) * 2 + i * 10) mod 360)
                             255 255)
                          (current_brightness w) key))).
    + destruct (for_each_from _ 0 (keys w)); reflexivity.
    + intros j k. do 2 f_equal. f_equal.
      replace ((animation_frame w + 180 * n + 1) * 2 + j * 10)
        with ((animation_frame w + 1) * 2 + j * 10 + n * 360) by lia.
      apply Z_mod_plus_full.
  - unfold animate_wave, for_each. fields.
    rewrite (for_each_from_ext _
               (fun (_ : Z) key =>
                  Some (set_color
                          (setHsv
                             (py_int
                                (py_fmod
                                   (IZR (wave_pos (current_direction w)
                                           (animation_frame w + 1)
                                           (zone_id key - 1)) * 3.6) 360))
                             255 255)
                          (py_int
                             (IZR (current_brightness w) *
                              ((sin (IZR (wave_pos (current_direction w)
                                            (animation_frame w + 1)
                                            (zone_id key - 1)) * 0.1) + 1)
                               / 2)))
                          key))).
    + destruct (for_each_from _ 0 (keys w)); reflexivity.
    + intros j k.
      replace (animation_frame w + 100 * n + 1)
        with (animation_frame w + 1 + 100 * n) by lia.
      rewrite wave_pos_period. reflexivity.
Qed.

(** X7: in Shifting mode a tick gives every key the same colour and the
    current brightness, and that colour is mixed from the base colour of
    the first zone only: replacing the other three base colours changes
    nothing of what the keys display. *)
Theorem shifting_tick_uniform (w : KeyboardPreviewWidget) :
  length (zone_colors w) = 4%nat ->
  current_mode w = mode_id Shifting ->
  exists w' color,
    update_animation setHsv w = Some w' /\
    Forall
      (fun k' => current_color k' = color /\
                 brightness k' = current_brightness w)
      (keys w') /\
    forall zc',
      py_getitem zc' 0 = py_getitem (zone_colors w) 0 ->
      option_map keys (update_animation setHsv (with_zone_colors zc' w)) =
      Some (keys w').
Proof.
  intros Hn Hm.
  destruct (py_getitem_in_bounds (zone_colors w) 0) as (o & Ho & _);
    [rewrite Hn; simpl; lia |].
  pose (f := animation_frame w + 1).
  pose (base := setHsv ((f * 2) mod 360) 255 255).
  pose (amount := (sin (IZR f * 0.05) * 0.5 + 0.5)%R).
  pose (mixed := mkQColor (mix_channel (red o) (red base) amount)
                   (mix_channel (green o) (green base) amount)
                   (mix_channel (blue o) (blue base) amount)).
  assert (Hrun : forall zc,
            py_getitem zc 0 = Some o ->
            update_animation setHsv (with_zone_colors zc w) =
            Some (with_keys
                    (map (set_color mixed (current_brightness w)) (keys w))
                    (with_frame (animation_frame w + 1)
                       (with_zone_colors zc w)))).
  { intros zc Hzc. unfold update_animation. fields. rewrite Hm.
    cbn [mode_id Z.eqb Pos.eqb].
    unfold animate_shifting, for_each. fields. rewrite Hzc. cbn [bind].
    rewrite for_each_from_map
      with (g := set_color mixed (current_brightness w)); [reflexivity |].
    intros j k _. reflexivity. }
  pose proof (Hrun (zone_colors w) Ho) as Hw.
  replace (with_zone_colors (zone_colors w) w) with w in Hw
    by (destruct w; reflexivity).
  eexists. exists mixed. split; [exact Hw |]. split.
  - fields. apply Forall_map. apply Forall_forall. intros k _.
    split; reflexivity.
  - intros zc' Hzc'. rewrite Ho in Hzc'.
    rewrite (Hrun zc' Hzc'). reflexivity.
Qed.

End Periods.

Lemma neon_wave_periodic_witness :
  option_map keys
    (update_animation sextant_hsv
       (with_frame (animation_frame initial_widget + 100 * 7) initial_widget)) =
  option_map keys (update_animation sextant_hsv initial_widget).
Proof.
  apply (neon_wave_periodic sextant_hsv Wave 100 7 initial_widget).
  - right. split; reflexivity.
  - reflexivity.
Defined.

Lemma shifting_tick_uniform_witness :
  exists w' color,
    update_animation sextant_hsv (with_mode 4 initial_widget) = Some w' /\
    Forall
      (fun k' => current_color k' = color /\
                 brightness k' = current_brightness (with_mode 4 initial_widget))
      (keys w') /\
    forall zc',
      py_getitem zc' 0 = py_getitem (zone_colors (with_mode 4 initial_widget)) 0 ->
      option_map keys
        (update_animation sextant_hsv
           (with_zone_colors zc' (with_mode 4 initial_widget))) =
      Some (keys w').
Proof.
  apply (shifting_tick_uniform sextant_hsv (with_mode 4 initial_widget));
    reflexivity.
Defined.

Section Independence.

Variable setHsv : Z -> Z -> Z -> QColor.

(** A tick commutes with any change of the widget that leaves alone the
    fields the animations read and write back. *)
Lemma update_animation_commutes
    (T : KeyboardPreviewWidget -> KeyboardPreviewWidget)
    (w : KeyboardPreviewWidget) (uses_direction : bool) :
  (forall v, current_mode (T v) = current_mode v) ->
  (forall v, current_brightness (T v) = current_brightness v) ->
  (forall v, zone_colors (T v) = zone_colors v) ->
  (forall v, keys (T v) = keys v) ->
  (forall v, animation_frame (T v) = animation_frame v) ->
  (forall v f, T (with_frame f v) = with_frame f (T v)) ->
  (forall v ks, T (with_keys ks v) = with_keys ks (T v)) ->
  (if uses_direction then current_direction (T w) = current_direction w
   else current_mode w <> 3) ->
  update_animation setHsv (T w) = option_map T (update_animation setHsv w).
Proof.
  intros Hm Hb Hz Hk Hf Hwf Hwk Hd. unfold update_animation.
  rewrite Hf, <- Hwf, Hm.
  set (w1 := with_frame (animation_frame w + 1) w).
  assert (Hd1 : current_mode w1 = 3 ->
                current_direction (T w1) = current_direction w1).
  { intros H3. destruct uses_direction.
    - unfold w1. rewrite Hwf. fields. exact Hd.
    - exfalso. apply Hd. exact H3. }
  clearbody w1.
  destruct (current_mode w1 =? 1).
  { unfold animate_breathing. rewrite Hb, Hz, Hk, Hf.
    destruct (for_each _ (keys w1)); cbn [bind option_map];
      [rewrite Hwk |]; reflexivity. }
  destruct (current_mode w1 =? 2).
  { unfold animate_neon. rewrite Hb, Hk, Hf.
    destruct (for_enumerate _ (keys w1)); cbn [bind option_map];
      [rewrite Hwk |]; reflexivity. }
  destruct (Z.eqb_spec (current_mode w1) 3) as [E3 | _].
  { unfold animate_wave. rewrite Hb, Hk, Hf, (Hd1 E3).
    destruct (for_each _ (keys w1)); cbn [bind option_map];
      [rewrite Hwk |]; reflexivity. }
  destruct (current_mode w1 =? 4).
  { unfold animate_shifting. rewrite Hb, Hz, Hk, Hf.
    destruct (py_getitem (zone_colors w1) 0); cbn [bind option_map];
      [| reflexivity].
    destruct (for_each _ (keys w1)); cbn [bind option_map];
      [rewrite Hwk |]; reflexivity. }
  destruct (current_mode w1 =? 5).
  { unfold animate_zoom. rewrite Hb, Hz, Hk, Hf.
    destruct (for_enumerate _ (keys w1)); cbn [bind option_map];
      [rewrite Hwk |]; reflexivity. }
  reflexivity.
Qed.

(** X8: what a tick displays does not depend on the speed, and depends on
    the direction in Wave mode only.  A tick after [update_speed] gives
    the widget that [update_speed] gives after the tick, in every mode;
    likewise for [update_direction] whenever the mode is not Wave. *)
Theorem tick_ignores_speed_and_direction (w : KeyboardPreviewWidget)
    (speed direction : Z) :
  update_animation setHsv (update_speed speed w) =
    option_map (update_speed speed) (update_animation setHsv w) /\
  (current_mode w <> mode_id Wave ->
   update_animation setHsv (update_direction direction w) =
     option_map (update_direction direction) (update_animation setHsv w)).
Proof.
  split.
  - apply (update_animation_commutes (update_speed speed) w true);
      try (intros v; unfold update_speed, update_animation_speed; fields;
           destruct (isActive (animation_timer v)); reflexivity);
      try (intros v x; unfold update_speed, update_animation_speed; fields;
           destruct (isActive (animation_timer v)); reflexivity).
    unfold update_speed, update_animation_speed; fields.
    destruct (isActive (animation_timer w)); reflexivity.
  - intros Hm.
    apply (update_animation_commutes (update_direction direction) w false);
      try (intros v; reflexivity); try (intros v x; reflexivity).
    exact Hm.
Qed.

End Independence.

Lemma tick_ignores_speed_and_direction_witness :
  update_animation sextant_hsv (update_speed 9 breathing_widget) =
    option_map (update_speed 9)
      (update_animation sextant_hsv breathing_widget) /\
  update_animation sextant_hsv (update_direction 2 breathing_widget) =
    option_map (update_direction 2)
      (update_animation sextant_hsv breathing_widget).
Proof.
  destruct (tick_ignores_speed_and_direction sextant_hsv breathing_widget 9 2)
    as (Hs & Hd).
  split; [exact Hs |]. apply Hd. discriminate.
Defined.

(** ** Clicks *)

(** X9: a click is turned into a zone exactly when it is a left click
    at an abscissa within [0, 460); the zone is then the one of the four
    115-pixel columns the abscissa falls in, so it is always in 1..4.
    Clicks to the left of 0 or at 460 and beyond, and clicks of another
    button, emit nothing. *)
Theorem mouse_press_zone (left_button : bool) (x : R) :
  match mousePressEvent left_button x with
  | Some zone =>
      left_button = true /\ 1 <= zone <= 4 /\
      (IZR (115 * (zone - 1)) <= x < IZR (115 * zone))%R
  | None => left_button = false \/ (x < 0)%R \/ (460 <= x)%R
  end.
Proof.
  unfold mousePressEvent, py_floordiv, keyboard_container_width.
  destruct left_button; [| left; reflexivity].
  rewrite py_int_IZR.
  replace (IZR 460 / 4)%R with 115%R by lra.
  destruct (base_Int_part (x / 115)) as [Hlo Hhi].
  set (q := Int_part (x / 115)) in *.
  assert (Hx : (IZR q * 115 <= x < (IZR q + 1) * 115)%R).
  { assert (Hdiv : (x = x / 115 * 115)%R) by (field; lra).
    split; rewrite Hdiv at 1 || rewrite Hdiv at 2; nra. }
  destruct ((1 <=? q + 1) && (q + 1 <=? 4)) eqn:Hg.
  - apply andb_true_iff in Hg. destruct Hg as [H1 H4].
    apply Z.leb_le in H1. apply Z.leb_le in H4.
    split; [reflexivity |]. split; [lia |].
    rewrite !mult_IZR, minus_IZR, plus_IZR. simpl (IZR 1). lra.
  - right. apply andb_false_iff in Hg. destruct Hg as [Hg | Hg].
    + left. apply Z.leb_gt in Hg.
      assert (Hq : (IZR q + 1 <= 0)%R).
      { rewrite <- (plus_IZR q 1). apply IZR_le. lia. }
      nra.
    + right. apply Z.leb_gt in Hg.
      assert (Hq : (4 <= IZR q)%R) by (apply IZR_le; lia).
      nra.
Qed.

(** ** One zone at a time *)

Lemma nth_error_replace_nth_same {A : Type} (l : list A) (n : nat) (v : A) :
  (n < length l)%nat -> nth_error (replace_nth l n v) n = Some v.
Proof.
  revert n. induction l as [| a l IH]; intros [| n] Hn; simpl in *;
    try lia; [reflexivity | apply IH; lia].
Qed.

Lemma nth_error_replace_nth_other {A : Type} (l : list A) (n m : nat)
    (v : A) :
  n <> m -> nth_error (replace_nth l n v) m = nth_error l m.
Proof.
  revert n m. induction l as [| a l IH]; intros [| n] [| m] Hnm; simpl;
    try reflexivity; try congruence.
  apply IH. congruence.
Qed.

Lemma py_getitem_nonneg {A : Type} (l : list A) (i : Z) :
  0 <= i < Z.of_nat (length l) -> py_getitem l i = nth_error l (Z.to_nat i).
Proof.
  intros [H0 Hn]. unfold py_getitem.
  destruct (Z.leb_spec 0 i) as [_ | ?]; [| lia].
  destruct (Z.ltb_spec i (Z.of_nat (length l))) as [_ | ?]; [| lia].
  reflexivity.
Qed.

(** X10: [update_zone_color] changes one zone and no other.  For a zone
    in 1..4 the base colour of that zone becomes the new colour and the
    keys of that zone display it at the current brightness; the base
    colours of the other three zones are kept; for a zone outside 1..4
    (0, 5, a negative number) the call returns the widget unchanged. *)
Theorem update_zone_color_one_zone (zone : Z) (color : QColor)
    (w : KeyboardPreviewWidget) :
  length (zone_colors w) = 4%nat ->
  exists w',
    update_zone_color zone color w = Some w' /\
    (1 <= zone <= 4 ->
     py_getitem (zone_colors w') (zone - 1) = Some color /\
     Forall
       (fun k => zone_id k = zone ->
                 current_color k = color /\
                 brightness k = current_brightness w)
       (keys w')) /\
    (forall i, 0 <= i < 4 -> i <> zone - 1 ->
       py_getitem (zone_colors w') i = py_getitem (zone_colors w) i) /\
    (~ 1 <= zone <= 4 -> w' = w).
Proof.
  intros Hn. rewrite update_zone_color_exact by exact Hn.
  eexists. split; [reflexivity |].
  destruct ((1 <=? zone) && (zone <=? 4)) eqn:Hg.
  - apply andb_true_iff in Hg. destruct Hg as [H1 H4].
    apply Z.leb_le in H1. apply Z.leb_le in H4.
    set (zc := replace_nth (zone_colors w) (Z.to_nat (zone - 1)) color).
    assert (Hlen : length zc = 4%nat)
      by (unfold zc; rewrite replace_nth_length; exact Hn).
    assert (Hget : py_getitem zc (zone - 1) = Some color).
    { rewrite py_getitem_nonneg by (rewrite Hlen; simpl; lia).
      apply nth_error_replace_nth_same. rewrite Hn. lia. }
    split; [| split].
    + intros _. fields. split; [exact Hget |].
      apply Forall_map. apply Forall_forall. intros k _ Hk.
      rewrite refresh_key_zone in Hk.
      unfold refresh_key. cbv zeta. fields. rewrite Hk.
      assert (Hgd : (0 <=? zone - 1) && (zone - 1 <? 4) = true)
        by (apply andb_true_iff; split; [apply Z.leb_le | apply Z.ltb_lt];
            lia).
      rewrite Hgd, Hget. split; reflexivity.
    + intros i Hi Hne. fields.
      rewrite !py_getitem_nonneg by (rewrite ?Hlen, ?Hn; simpl; lia).
      apply nth_error_replace_nth_other. lia.
    + intros Hout. exfalso. apply Hout. lia.
  - split; [| split].
    + intros Hin. exfalso.
      apply andb_false_iff in Hg. destruct Hg as [Hg | Hg];
        apply Z.leb_gt in Hg; lia.
    + intros i _ _. reflexivity.
    + intros _. reflexivity.
Qed.

Lemma update_zone_color_one_zone_witness :
  exists w',
    update_zone_color 2 (mkQColor 255 0 0) initial_widget = Some w' /\
    (1 <= 2 <= 4 ->
     py_getitem (zone_colors w') (2 - 1) = Some (mkQColor 255 0 0) /\
     Forall
       (fun k => zone_id k = 2 ->
                 current_color k = mkQColor 255 0 0 /\
                 brightness k = current_brightness initial_widget)
       (keys w')) /\
    (forall i, 0 <= i < 4 -> i <> 2 - 1 ->
       py_getitem (zone_colors w') i =
       py_getitem (zone_colors initial_widget) i) /\
    (~ 1 <= 2 <= 4 -> w' = initial_widget).
Proof.
  apply (update_zone_color_one_zone 2 (mkQColor 255 0 0) initial_widget).
  reflexivity.
Defined.

(** ** Applying the same state twice *)

Lemma refresh_with_zone_colors_same (w : KeyboardPreviewWidget) :
  with_zone_colors (zone_colors w) w = w.
Proof. destruct w; reflexivity. Qed.

Lemma refresh_map_idem (w : KeyboardPreviewWidget) (ks : list KeyWidget) :
  map (refresh_key w) (map (refresh_key w) ks) = map (refresh_key w) ks.
Proof.
  rewrite map_map. apply map_ext. intros k. apply refresh_key_idem.
Qed.

Lemma refresh_absorbs (w : KeyboardPreviewWidget) (t : QTimer) (m : Z) :
  refresh (with_timer t (with_mode m (refresh w))) =
  refresh (with_timer t (with_mode m w)).
Proof.
  unfold refresh. fields.
  replace (map
             (refresh_key
                (with_timer t
                   (with_mode m (with_keys (map (refresh_key w) (keys w)) w))))
             (map (refresh_key w) (keys w)))
    with (map (refresh_key (with_timer t (with_mode m w))) (keys w)).
  - reflexivity.
  - rewrite map_map. apply map_ext. intros k.
    rewrite (refresh_key_ext (with_timer t (with_mode m w)) w)
      by reflexivity.
    rewrite (refresh_key_ext
               (with_timer t
                  (with_mode m (with_keys (map (refresh_key w) (keys w)) w)))
               w) by reflexivity.
    symmetry. apply refresh_key_idem.
Qed.

Lemma update_from_state_exact (state : StateDict)
    (w : KeyboardPreviewWidget) :
  length (zone_colors w) = 4%nat ->
  update_from_state state w = Some (update_from_state_result state w).
Proof.
  intros Hn. unfold update_from_state, update_from_state_result,
    state_zone_colors.
  destruct (dict_get (d_color state) (50, 255, 50)) as [[r g] b].
  cbv zeta.
  set (w0 := with_direction (dict_get (d_direction state) 1)
               (with_speed (dict_get (d_speed state) 5)
                  (with_brightness (dict_get (d_brightness state) 100)
                     (with_mode (dict_get (d_mode state) 3) w)))).
  assert (Hn0 : length (zone_colors w0) = 4%nat) by exact Hn.
  change (current_mode w0) with (dict_get (d_mode state) 3).
  change (zone_colors w) with (zone_colors w0).
  change (animation_timer w) with (animation_timer w0).
  assert (Hfin : forall w1,
            length (zone_colors w1) = 4%nat ->
            current_mode w1 = dict_get (d_mode state) 3 ->
            current_speed w1 = dict_get (d_speed state) 5 ->
            (w2 <- update_mode (current_mode w1) w1 ;;
             Some (update_speed (current_speed w2) w2)) =
            Some (update_speed (dict_get (d_speed state) 5)
                    (refresh
                       (with_timer
                          (if py_in (dict_get (d_mode state) 3) animated_modes
                           then timer_start 100 (animation_timer w1)
                           else timer_stop (animation_timer w1))
                          (with_mode (dict_get (d_mode state) 3) w1))))).
  { intros w1 Hn1 Hm1 Hs1. rewrite update_mode_exact by exact Hn1.
    cbn [bind]. rewrite Hm1. fields. rewrite Hs1. reflexivity. }
  destruct (dict_get (d_mode state) 3 =? 0) eqn:Hstatic.
  - rewrite update_zone_color_exact by exact Hn0. cbn [bind].
    destruct ((1 <=? dict_get (d_zone state) 1) &&
              (dict_get (d_zone state) 1 <=? 4)).
    + rewrite Hfin; [| fields; rewrite replace_nth_length; exact Hn0
                     | reflexivity | reflexivity].
      rewrite refresh_absorbs. reflexivity.
    + rewrite Hfin by (exact Hn0 || reflexivity).
      rewrite refresh_with_zone_colors_same. reflexivity.
  - rewrite update_color_exact by exact Hn0. cbn [bind].
    change (current_mode w0) with (dict_get (d_mode state) 3).
    destruct (py_in (dict_get (d_mode state) 3) color_modes).
    + rewrite Hfin by reflexivity.
      rewrite refresh_absorbs. reflexivity.
    + rewrite Hfin by (exact Hn0 || reflexivity).
      rewrite refresh_with_zone_colors_same. reflexivity.
Qed.

Lemma widget_eq (a b : KeyboardPreviewWidget) :
  animation_timer a = animation_timer b ->
  animation_frame a = animation_frame b ->
  current_mode a = current_mode b ->
  current_colors a = current_colors b ->
  current_brightness a = current_brightness b ->
  current_speed a = current_speed b ->
  current_direction a = current_direction b ->
  keys a = keys b ->
  zone_colors a = zone_colors b ->
  a = b.
Proof.
  destruct a, b. simpl. intros; subst. reflexivity.
Qed.

Lemma update_from_state_result_fields (state : StateDict)
    (w : KeyboardPreviewWidget) :
  let r := update_from_state_result state w in
  current_mode r = dict_get (d_mode state) 3 /\
  current_brightness r = dict_get (d_brightness state) 100 /\
  current_speed r = dict_get (d_speed state) 5 /\
  current_direction r = dict_get (d_direction state) 1 /\
  animation_frame r = animation_frame w /\
  current_colors r = current_colors w /\
  zone_colors r = state_zone_colors state (zone_colors w) /\
  keys r = map (refresh_key r) (keys w) /\
  animation_timer r =
    (if py_in (dict_get (d_mode state) 3) animated_modes
     then mkQTimer true (Z.max 50 (250 - dict_get (d_speed state) 5 * 20))
     else mkQTimer false (interval (animation_timer w))).
Proof.
  cbv zeta.
  unfold update_from_state_result, update_speed, update_animation_speed.
  cbv zeta. fields.
  destruct (py_in (dict_get (d_mode state) 3) animated_modes); fields;
    do 7 (split; [reflexivity |]);
    (split; [| reflexivity]);
    apply map_ext; intros k; apply refresh_key_ext; reflexivity.
Qed.

Lemma replace_nth_idem {A : Type} (l : list A) (n : nat) (v : A) :
  replace_nth (replace_nth l n v) n v = replace_nth l n v.
Proof.
  revert n. induction l as [| a l IH]; intros [| n]; simpl;
    try reflexivity.
  rewrite IH. reflexivity.
Qed.

Lemma state_zone_colors_idem (state : StateDict) (zc : list QColor) :
  state_zone_colors state (state_zone_colors state zc) =
  state_zone_colors state zc.
Proof.
  unfold state_zone_colors.
  destruct (dict_get (d_color state) (50, 255, 50)) as [[r g] b].
  cbv zeta.
  destruct (dict_get (d_mode state) 3 =? 0).
  - destruct ((1 <=? dict_get (d_zone state) 1) &&
              (dict_get (d_zone state) 1 <=? 4));
      [apply replace_nth_idem | reflexivity].
  - destruct (py_in (dict_get (d_mode state) 3) color_modes); reflexivity.
Qed.

Lemma state_zone_colors_length (state : StateDict) (zc : list QColor) :
  length zc = 4%nat -> length (state_zone_colors state zc) = 4%nat.
Proof.
  intros Hn. unfold state_zone_colors.
  destruct (dict_get (d_color state) (50, 255, 50)) as [[r g] b].
  cbv zeta.
  destruct (dict_get (d_mode state) 3 =? 0).
  - destruct ((1 <=? dict_get (d_zone state) 1) &&
              (dict_get (d_zone state) 1 <=? 4));
      [rewrite replace_nth_length |]; exact Hn.
  - destruct (py_in (dict_get (d_mode state) 3) color_modes);
      [reflexivity | exact Hn].
Qed.

(** X11: [update_from_state] is idempotent.  Handing the widget the same
    state dictionary a second time returns exactly the widget the first
    call returned: fields, base colours, keys and timer (armed at the
    speed-derived interval in an animated mode, stopped otherwise). *)
Theorem update_from_state_idempotent (state : StateDict)
    (w : KeyboardPreviewWidget) :
  length (zone_colors w) = 4%nat ->
  exists w1,
    update_from_state state w = Some w1 /\
    update_from_state state w1 = Some w1.
Proof.
  intros Hn. exists (update_from_state_result state w).
  split; [apply update_from_state_exact; exact Hn |].
  pose proof (update_from_state_result_fields state w) as Hr.
  cbv zeta in Hr.
  set (r := update_from_state_result state w) in *.
  destruct Hr as (Hm & Hb & Hs & Hd & Hf & Hc & Hz & Hk & Ht).
  assert (Hnr : length (zone_colors r) = 4%nat)
    by (rewrite Hz; apply state_zone_colors_length; exact Hn).
  rewrite update_from_state_exact by exact Hnr. f_equal.
  pose proof (update_from_state_result_fields state r) as Hr2.
  cbv zeta in Hr2.
  set (r2 := update_from_state_result state r) in *.
  destruct Hr2 as (Hm2 & Hb2 & Hs2 & Hd2 & Hf2 & Hc2 & Hz2 & Hk2 & Ht2).
  assert (Hzz : zone_colors r2 = zone_colors r)
    by (rewrite Hz2, Hz; apply state_zone_colors_idem).
  apply widget_eq; try congruence.
  - rewrite Ht2, Ht.
    destruct (py_in (dict_get (d_mode state) 3) animated_modes); reflexivity.
  - rewrite Hk2. rewrite Hk at 2.
    rewrite (map_ext (refresh_key r2) (refresh_key r))
      by (intros k; apply refresh_key_ext; congruence).
    rewrite Hk at 1. rewrite refresh_map_idem. reflexivity.
Qed.

Lemma update_from_state_idempotent_witness :
  exists w1,
    update_from_state (mkStateDict (Some 0) (Some 40) None None
                         (Some (10, 20, 30)) (Some 3)) initial_widget =
      Some w1 /\
    update_from_state (mkStateDict (Some 0) (Some 40) None None
                         (Some (10, 20, 30)) (Some 3)) w1 = Some w1.
Proof.
  apply (update_from_state_idempotent _ initial_widget). reflexivity.
Defined.

(** ** Ranges along a session *)






Section SessionRanges.

Variable setHsv : Z -> Z -> Z -> QColor.

Hypothesis setHsv_valid :
  forall h, 0 <= h < 360 -> valid_color (setHsv h 255 255).



End SessionRanges.


(** ** The rainbow of Neon *)

Lemma for_each_from_nth_error {A B : Type} (f : Z -> A -> option B)
    (l : list A) (i : Z) (bs : list B) :
  for_each_from f i l = Some bs ->
  length bs = length l /\
  forall n b, nth_error bs n = Some b ->
    exists a, nth_error l n = Some a /\ f (i + Z.of_nat n) a = Some b.
Proof.
  revert i bs. induction l as [| a l IH]; intros i bs H; simpl in H.
  - injection H as <-. split; [reflexivity |].
    intros [| n] b Hb; discriminate Hb.
  - destruct (f i a) as [b0 |] eqn:Hb0; [| discriminate H].
    cbn [bind] in H.
    destruct (for_each_from f (i + 1) l) as [bs0 |] eqn:Hrec;
      [| discriminate H].
    cbn [bind] in H. injection H as <-.
    destruct (IH (i + 1) bs0 Hrec) as (Hlen & Hnth).
    split; [simpl; rewrite Hlen; reflexivity |].
    intros [| n] b Hb; simpl in Hb.
    + injection Hb as <-. exists a. split; [reflexivity |].
      replace (i + Z.of_nat 0) with i by lia. exact Hb0.
    + destruct (Hnth n b Hb) as (a' & Ha' & Hf).
      exists a'. split; [exact Ha' |].
      replace (i + Z.of_nat (S n)) with (i + 1 + Z.of_nat n) by lia.
      exact Hf.
Qed.

Section Rainbow.

Variable setHsv : Z -> Z -> Z -> QColor.

(** X14: in Neon mode a tick succeeds on any widget and gives the key at
    position [i] of the key list the hue [(2 f + 10 i) mod 360] at full
    saturation and value, [f] being the new frame counter, with the
    current brightness; the base colours play no part.  Any 36
    consecutive keys, as many as the widget has, carry 36 different hues. *)
Theorem neon_tick_rainbow (w : KeyboardPreviewWidget) :
  current_mode w = mode_id Neon ->
  exists w',
    update_animation setHsv w = Some w' /\
    length (keys w') = length (keys w) /\
    (forall i k',
       nth_error (keys w') i = Some k' ->
       current_color k' =
         setHsv (((animation_frame w + 1) * 2 + Z.of_nat i * 10) mod 360)
           255 255 /\
       brightness k' = current_brightness w) /\
    (forall i j : Z,
       0 <= i < j -> j < i + 36 ->
       ((animation_frame w + 1) * 2 + i * 10) mod 360 <>
       ((animation_frame w + 1) * 2 + j * 10) mod 360).
Proof.
  intros Hm. unfold update_animation. fields. rewrite Hm.
  cbn [mode_id Z.eqb Pos.eqb].
  unfold animate_neon, for_enumerate. fields.
  destruct (for_each_from
              (fun i key =>
                 Some (set_color
                         (setHsv
                            (((animation_frame w + 1) * 2 + i * 10) mod 360)
                            255 255)
                         (current_brightness w) key))
              0 (keys w)) as [ks |] eqn:Hrun.
  - cbn [bind]. eexists. split; [reflexivity |]. fields.
    destruct (for_each_from_nth_error _ _ _ _ Hrun) as (Hlen & Hnth).
    split; [exact Hlen |]. split.
    + intros i k' Hk'. destruct (Hnth i k' Hk') as (k & _ & Hf).
      injection Hf as <-. split; reflexivity.
    + intros i j Hij Hj Heq.
      set (a := (animation_frame w + 1) * 2 + i * 10) in *.
      replace ((animation_frame w + 1) * 2 + j * 10)
        with (a + (j - i) * 10) in Heq by (unfold a; lia).
      pose proof (Z.div_mod a 360) as Ha.
      pose proof (Z.div_mod (a + (j - i) * 10) 360) as Hb.
      pose proof (Z.mod_pos_bound a 360) as Hra.
      assert (Hd : (j - i) * 10 =
                   360 * ((a + (j - i) * 10) / 360 - a / 360)) by lia.
      assert (H1 : 0 < (a + (j - i) * 10) / 360 - a / 360) by nia.
      nia.
  - exfalso.
    destruct (key_loop_total
                (fun i key =>
                   Some (set_color
                           (setHsv
                              (((animation_frame w + 1) * 2 + i * 10) mod 360)
                              255 255)
                           (current_brightness w) key))
                (fun _ => True) (keys w) 0) as (ks & Hks).
    + intros j k _. eexists. reflexivity.
    + apply Forall_forall. intros; exact I.
    + rewrite Hks in Hrun. discriminate Hrun.
Qed.

End Rainbow.

Lemma neon_tick_rainbow_witness :
  exists w',
    update_animation sextant_hsv (with_mode 2 initial_widget) = Some w' /\
    length (keys w') = length (keys (with_mode 2 initial_widget)) /\
    (forall i k',
       nth_error (keys w') i = Some k' ->
       current_color k' =
         sextant_hsv
           (((animation_frame (with_mode 2 initial_widget) + 1) * 2 +
             Z.of_nat i * 10) mod 360) 255 255 /\
       brightness k' = current_brightness (with_mode 2 initial_widget)) /\
    (forall i j : Z,
       0 <= i < j -> j < i + 36 ->
       ((animation_frame (with_mode 2 initial_widget) + 1) * 2 + i * 10)
         mod 360 <>
       ((animation_frame (with_mode 2 initial_widget) + 1) * 2 + j * 10)
         mod 360).
Proof.
  apply (neon_tick_rainbow sextant_hsv (with_mode 2 initial_widget)).
  reflexivity.
Defined.

(** ** The colour field of the web page *)

(** The fuel of [hex_digits] never runs out: any larger amount gives the
    same digits. *)
Lemma hex_digits_fuel (fuel fuel' : nat) (n : Z) (acc : String.string) :
  0 <= n -> (Z.to_nat n < fuel)%nat -> (Z.to_nat n < fuel')%nat ->
  WebClient.hex_digits fuel n acc = WebClient.hex_digits fuel' n acc.
Proof.
  revert fuel' n acc. induction fuel as [| fuel IH]; intros fuel' n acc Hn Hf Hf'.
  - lia.
  - destruct fuel' as [| fuel']; [lia |]. simpl.
    destruct (Z.eqb_spec (n / 16) 0) as [_ | Hq]; [reflexivity |].
    assert (Hlt : 0 <= n / 16 < n).
    { split; [apply Z.div_pos; lia |].
      apply Z.div_lt; [| lia].
      destruct (Z.eq_dec n 0) as [-> | ?]; [exfalso; apply Hq; reflexivity |].
      lia. }
    apply IH; lia.
Qed.

Lemma channel_round_trip_all :
  forallb WebClient.channel_round_trip (seq 0 256) = true.
Proof. vm_compute. reflexivity. Qed.

Lemma channel_two_digits (n : Z) :
  0 <= n <= 255 ->
  exists c1 c2,
    WebClient.two_digits n =
      String.String c1 (String.String c2 String.EmptyString) /\
    WebClient.is_lower_hex c1 = true /\
    WebClient.is_lower_hex c2 = true /\
    WebClient.parseInt16
      (String.String c1 (String.String c2 String.EmptyString)) = Some n.
Proof.
  intros Hn.
  pose proof channel_round_trip_all as Hall.
  rewrite forallb_forall in Hall.
  specialize (Hall (Z.to_nat n)).
  assert (Hin : In (Z.to_nat n) (seq 0 256)) by (apply in_seq; lia).
  specialize (Hall Hin). unfold WebClient.channel_round_trip in Hall.
  rewrite Z2Nat.id in Hall by lia.
  destruct (WebClient.two_digits n)
    as [| c1 [| c2 [| c3 s]]]; try discriminate Hall.
  exists c1, c2. split; [reflexivity |].
  cbn [String.length Nat.eqb andb WebClient.all_lower_hex] in Hall.
  destruct (WebClient.is_lower_hex c1); [| discriminate Hall].
  destruct (WebClient.is_lower_hex c2); [| discriminate Hall].
  cbn [andb] in Hall.
  destruct (WebClient.parseInt16
              (String.String c1 (String.String c2 String.EmptyString)))
    as [v |]; [| discriminate Hall].
  apply Z.eqb_eq in Hall. subst v. auto.
Qed.

(** X15: a colour written into the colour field and read back is the same
    colour.  For channels in 0..255 the string the page script builds is
    a simple colour, ["#"] followed by six lower-case hexadecimal digits,
    and parsing its three pairs of digits gives back the three channels. *)
Theorem color_hex_round_trip (r g b : Z) :
  0 <= r <= 255 -> 0 <= g <= 255 -> 0 <= b <= 255 ->
  WebClient.is_simple_color (WebClient.color_to_hex r g b) = true /\
  WebClient.hex_to_color (WebClient.color_to_hex r g b) =
    (Some r, Some g, Some b).
Proof.
  intros Hr Hg Hb.
  destruct (channel_two_digits r Hr) as (r1 & r2 & Er & Lr1 & Lr2 & Pr).
  destruct (channel_two_digits g Hg) as (g1 & g2 & Eg & Lg1 & Lg2 & Pg).
  destruct (channel_two_digits b Hb) as (b1 & b2 & Eb & Lb1 & Lb2 & Pb).
  unfold WebClient.color_to_hex, WebClient.hex_to_color, WebClient.substr.
  rewrite Er, Eg, Eb.
  cbn [String.append String.substring].
  rewrite Pr, Pg, Pb. split; [| reflexivity].
  cbn [WebClient.is_simple_color String.length Nat.eqb andb
       WebClient.all_lower_hex].
  rewrite Lr1, Lr2, Lg1, Lg2, Lb1, Lb2. reflexivity.
Qed.

Lemma color_hex_round_trip_witness :
  WebClient.is_simple_color (WebClient.color_to_hex 131 184 26) = true /\
  WebClient.hex_to_color (WebClient.color_to_hex 131 184 26) =
    (Some 131, Some 184, Some 26).
Proof.
  apply (color_hex_round_trip 131 184 26); lia.
Defined.
